(** * weboutlook/scraper.py: a shallow embedding of [OutlookWebScraper]

    The scraper is a Python 2 class that drives a mechanize [Browser].  Its
    methods are embedded as state-passing functions over a record holding
    the instance attributes; exceptions are explicit outcomes.  The browser
    and the three standard-library URL helpers the module imports are
    interfaces (type classes): the code treats them as opaque collaborators.
    Line numbers refer to src/weboutlook/scraper.py. *)

From Stdlib Require Import String Ascii List Bool Arith Lia.
From stdpp Require Import base option list strings gmap.
Import ListNotations.
Open Scope string_scope.

(** ** Python [str] operations used by the module *)

Module PyStr.

(** [s.startswith(p)] *)
Fixpoint starts_with (p s : string) : bool :=
  match p, s with
  | EmptyString, _ => true
  | String a p', String b s' => if Ascii.eqb a b then starts_with p' s' else false
  | String _ _, EmptyString => false
  end.

(** [needle in hay] for two [str] values: substring test. *)
Fixpoint contains (needle hay : string) : bool :=
  if starts_with needle hay then true
  else match hay with
       | EmptyString => false
       | String _ hay' => contains needle hay'
       end.

(** Scanning loop of [str.replace] for a non-empty [old]: [skip] counts the
    characters of a match that are still to be dropped. *)
Fixpoint replace_from (old new : string) (skip : nat) (s : string) : string :=
  match s with
  | EmptyString => EmptyString
  | String c s' =>
      match skip with
      | S k => replace_from old new k s'
      | O =>
          if starts_with old s
          then new ++ replace_from old new (String.length old - 1) s'
          else String c (replace_from old new 0 s')
      end
  end.

(** With an empty [old], Python inserts [new] before every character and
    at the end. *)
Fixpoint intersperse (new s : string) : string :=
  match s with
  | EmptyString => new
  | String c s' => new ++ String c (intersperse new s')
  end.

(** [s.replace(old, new)] *)
Definition replace (old new s : string) : string :=
  match old with
  | EmptyString => intersperse new s
  | String _ _ => replace_from old new 0 s
  end.

(** Truth value of a [str]: the empty string is false. *)
Definition truthy (s : string) : bool :=
  match s with EmptyString => false | String _ _ => true end.

End PyStr.

(** Truth value of an optional keyword argument that is [None] or a [str]. *)
Definition arg_truthy (a : option string) : bool :=
  match a with
  | None => false
  | Some s => PyStr.truthy s
  end.

(** ** Exceptions *)

(** [InvalidLogin] and [RetrievalError] are the module's own classes
    (lines 84-88); the others are the built-in exceptions its statements can
    raise, and [BrowserError] stands for whatever the browser raises. *)
Inductive exn : Type :=
| InvalidLogin
| RetrievalError (msg : string)
| NameError (name : string)
| IndexError
| KeyError (key : string)
| StopIteration
| TypeError
| BrowserError (what : string).

(** The result of running a method: it returns, raises, or (for the
    [while] loop of [get_folder]) is still running when the fuel is spent. *)
Inductive outcome (A : Type) : Type :=
| Return (a : A)
| Raise (e : exn)
| Diverge.
Arguments Return {A} a.
Arguments Raise {A} e.
Arguments Diverge {A}.

(** ** The method monad: state and exceptions *)

(** A method is a function from the state of the instance to an outcome and
    the state it leaves behind. *)
Definition M (S A : Type) : Type := S -> outcome A * S.

Definition ret {S A} (a : A) : M S A := fun s => (Return a, s).

Definition raise {S A} (e : exn) : M S A := fun s => (Raise e, s).

Definition diverge {S A} : M S A := fun s => (Diverge, s).

Definition bind {S A C} (m : M S A) (f : A -> M S C) : M S C :=
  fun s =>
    match m s with
    | (Return a, s') => f a s'
    | (Raise e, s') => (Raise e, s')
    | (Diverge, s') => (Diverge, s')
    end.

(** An outcome computed without touching the state. *)
Definition lift {S A} (o : outcome A) : M S A := fun s => (o, s).

Definition gets {S A} (f : S -> A) : M S A := fun s => (Return (f s), s).

Definition modify {S} (f : S -> S) : M S unit := fun s => (Return tt, f s).

Declare Scope py_scope.
Delimit Scope py_scope with py.
Notation "'let*' x ':=' m 'in' f" := (bind m (fun x => f))
  (at level 10, x name, m at level 100, f at level 200) : py_scope.
Notation "m1 '>>>' m2" := (bind m1 (fun _ => m2))
  (at level 100, m2 at level 200, right associativity) : py_scope.
Open Scope py_scope.

(** ** The collaborators *)

(** A mechanize [Link]: [text] is [None] for links that carry no text. *)
Record Link : Type := mkLink {
  link_url : string;
  link_text : option string;
  link_base_url : string
}.

(** The operations of [mechanize.Browser] the module calls.  Each one takes
    the browser state and gives an outcome and the new state.  [Response] is
    the type of the object [Browser.open] returns. *)
Class BrowserAPI (B Response : Type) : Type := {
  b_add_password : string -> string -> string -> B -> outcome unit * B;
  b_open : string -> option string -> B -> outcome Response * B;
  b_select_form : string -> B -> outcome unit * B;
  b_set_control : string -> string -> B -> outcome unit * B;
  b_submit : B -> outcome unit * B;
  b_response_read : B -> outcome string * B;
  b_links : B -> outcome (list Link) * B;
  b_set_addheaders : list (string * string) -> B -> outcome unit * B;
  response_truthy : Response -> bool
}.

(** [urlparse.urljoin], [urllib.quote] and [urllib.urlencode]; for
    [urlencode] the dict literal is passed as its items in source order. *)
Class UrlLib : Type := {
  urljoin : string -> string -> string;
  quote : string -> string;
  urlencode : list (string * string) -> string
}.

(** ** Values stored in and returned from the caches *)

(** The caches are plain dicts and the cache methods return either a stored
    value, [False] or (falling off the end) [None]. *)
Inductive pyval (Response : Type) : Type :=
| PyNone
| PyBool (b : bool)
| PyUrls (l : list string)
| PyPayload (r : Response).
Arguments PyNone {Response}.
Arguments PyBool {Response} b.
Arguments PyUrls {Response} l.
Arguments PyPayload {Response} r.

Section Scraper.

Context {B Response : Type} `{!BrowserAPI B Response} `{!UrlLib}.

Abbreviation value := (pyval Response).

(** Python truth value. *)
Definition truthy (v : value) : bool :=
  match v with
  | PyNone => false
  | PyBool b => b
  | PyUrls l => match l with [] => false | _ :: _ => true end
  | PyPayload r => response_truthy r
  end.

(** The instance attributes set by [__init__] (lines 91-99). *)
Record Scraper : Type := mkScraper {
  domain : string;
  username : string;
  password : string;
  is_logged_in : bool;
  base_href : option string;
  browser : B;
  folder_cache : gmap string value;
  message_cache : gmap string value
}.

Definition set_browser (b : B) (s : Scraper) : Scraper :=
  mkScraper (domain s) (username s) (password s) (is_logged_in s)
            (base_href s) b (folder_cache s) (message_cache s).

Definition set_is_logged_in (v : bool) (s : Scraper) : Scraper :=
  mkScraper (domain s) (username s) (password s) v
            (base_href s) (browser s) (folder_cache s) (message_cache s).

Definition set_base_href (v : option string) (s : Scraper) : Scraper :=
  mkScraper (domain s) (username s) (password s) (is_logged_in s)
            v (browser s) (folder_cache s) (message_cache s).

Definition set_folder_cache (c : gmap string value) (s : Scraper) : Scraper :=
  mkScraper (domain s) (username s) (password s) (is_logged_in s)
            (base_href s) (browser s) c (message_cache s).

Definition set_message_cache (c : gmap string value) (s : Scraper) : Scraper :=
  mkScraper (domain s) (username s) (password s) (is_logged_in s)
            (base_href s) (browser s) (folder_cache s) c.

(** [OutlookWebScraper(domain, username, password)]; [b0] is the state of
    the [Browser()] the constructor creates. *)
Definition init (d u p : string) (b0 : B) : Scraper :=
  mkScraper d u p false None b0 ∅ ∅.

(** A call on [self.browser]. *)
Definition on_browser {A} (op : B -> outcome A * B) : M Scraper A :=
  fun s => let (r, b') := op (browser s) in (r, set_browser b' s).

(** A call [name(...)] of a name that is bound neither locally nor at
    module level nor as a built-in.  The module binds [socket], [urllib],
    [urlparse], [logging], the names of [logging.handlers], [Browser],
    [logger], [consolelogger], the two exception classes and
    [OutlookWebScraper] (lines 68-90); the cache helpers are attributes of
    the class only, so a call written without [self.] raises [NameError]
    when it is reached, before its arguments are used. *)
Definition call_unbound (name : string) : M Scraper value := raise (NameError name).


(** *** The cache methods *)

(** [d[k]] *)
Definition dict_get (d : Scraper -> gmap string value) (k : string) : M Scraper value :=
  fun s => match d s !! k with
           | Some v => (Return v, s)
           | None => (Raise (KeyError k), s)
           end.

(** [del self.message_cache[k]] *)
Definition del_message (k : string) : M Scraper unit :=
  fun s => match message_cache s !! k with
           | Some _ => (Return tt, set_message_cache (delete k (message_cache s)) s)
           | None => (Raise (KeyError k), s)
           end.

(** [del self.folder_cache[k]] *)
Definition del_folder (k : string) : M Scraper unit :=
  fun s => match folder_cache s !! k with
           | Some _ => (Return tt, set_folder_cache (delete k (folder_cache s)) s)
           | None => (Raise (KeyError k), s)
           end.

(** [add_to_cache] (lines 101-108); without a truthy [folder_name] or
    [msgid] it falls off the end and returns [None]. *)
Definition add_to_cache (folder_name : option string) (message_urls : value)
    (msgid : option string) (payload : value) : M Scraper value :=
  if arg_truthy folder_name then
    let f := default "" folder_name in
    modify (fun s => set_folder_cache (<[f := message_urls]> (folder_cache s)) s) >>>
    dict_get folder_cache f
  else if arg_truthy msgid then
    let m := default "" msgid in
    modify (fun s => set_message_cache (<[m := payload]> (message_cache s)) s) >>>
    dict_get message_cache m
  else ret PyNone.

(** [find_in_cache] (lines 110-118).  The [else] belongs to
    [if folder_name:]; a truthy folder name that is not cached falls off the
    end of the function, which returns [None]. *)
Definition find_in_cache (folder_name msgid : option string) : M Scraper value :=
  fun s =>
    let by_folder :=
      if arg_truthy folder_name then
        match folder_cache s !! default "" folder_name with
        | Some v => (Return v, s)
        | None => (Return PyNone, s)
        end
      else (Return (PyBool false), s) in
    if arg_truthy msgid then
      match message_cache s !! default "" msgid with
      | Some v => (Return v, s)
      | None => by_folder
      end
    else by_folder.

(** [for id in cache:] over a cached value: a folder entry holds a list of
    ids; the other values are taken as not iterable. *)
Definition iter_ids (cache : value) : outcome (list string) :=
  match cache with
  | PyUrls l => Return l
  | _ => Raise TypeError
  end.

(** Lines 132-133: [for id in cache: del self.message_cache[id]]. *)
Fixpoint del_messages (ids : list string) : M Scraper unit :=
  match ids with
  | [] => ret tt
  | id :: rest => del_message id >>> del_messages rest
  end.

(** Lines 128-138 of [remove_from_cache]. *)
Definition remove_folder_part (folder_name : option string) : M Scraper value :=
  if arg_truthy folder_name then
    let* cache := call_unbound "find_in_cache" in
    if truthy cache then
      del_folder (default "" folder_name) >>>
      let* ids := lift (iter_ids cache) in
      del_messages ids >>>
      ret (PyBool true)
    else ret (PyBool false)
  else ret (PyBool false).

(** [remove_from_cache] (lines 120-138).  Both lookups are written
    [find_in_cache(...)], without [self.]. *)
Definition remove_from_cache (folder_name msgid : option string) : M Scraper value :=
  if arg_truthy msgid then
    let* cache := call_unbound "find_in_cache" in
    if truthy cache then
      del_message (default "" msgid) >>>
      if negb (arg_truthy folder_name) then ret (PyBool true)
      else remove_folder_part folder_name
    else remove_folder_part folder_name
  else remove_folder_part folder_name.

(** [flush_cache] (lines 140-143). *)
Definition flush_cache : M Scraper value :=
  modify (set_folder_cache ∅) >>>
  modify (set_message_cache ∅) >>>
  ret (PyBool true).

(** *** Session *)

(** Text the server puts on the page when it rejects the credentials. *)
Definition failure_marker : string :=
  "You could not be logged on to Outlook Web Access".

(** Lines 147-154 of [login], up to reading the page that follows the
    submission of the logon form. *)
Definition login_page : M Scraper string :=
  let* d := gets domain in
  let* u := gets username in
  let* p := gets password in
  let destination := urljoin d "exchange/" in
  on_browser (b_add_password destination u p) >>>
  on_browser (b_open destination None) >>>
  on_browser (b_select_form "logonForm") >>>
  on_browser (b_set_control "username" u) >>>
  on_browser (b_set_control "password" p) >>>
  on_browser b_submit >>>
  on_browser b_response_read.

(** [login] (lines 145-160).  [links().next()] raises [StopIteration] on a
    page without links. *)
Definition login : M Scraper unit :=
  let* page := login_page in
  if PyStr.contains failure_marker page then raise InvalidLogin
  else
    let* ls := on_browser b_links in
    match ls with
    | [] => raise StopIteration
    | m :: _ =>
        if negb (PyStr.truthy (link_base_url m))
        then raise (RetrievalError "Couldn't find <base href> on page after logging in.")
        else
          modify (set_base_href (Some (link_base_url m))) >>>
          modify (set_is_logged_in true)
    end.

(** [if not self.is_logged_in: self.login()] (lines 186-187, 214-215 and
    226-227). *)
Definition ensure_logged_in : M Scraper unit :=
  let* logged := gets is_logged_in in
  if logged then ret tt else login.

(** [self.base_href + rest]: adding a [str] to [None] is a [TypeError]. *)
Definition href_plus (rest : string) : M Scraper string :=
  let* base := gets base_href in
  match base with
  | Some b => ret (b ++ rest)
  | None => raise TypeError
  end.

(** *** Folder listings *)

(** Marker of a one-page listing (line 191). *)
Definition single_page_marker : string := "&nbsp;of&nbsp;1".

(** [[link.url for link in links if '.EML' in link.url]] (line 190). *)
Definition eml_urls (ls : list Link) : list string :=
  map link_url (filter (fun l => PyStr.contains ".EML" (link_url l) = true) ls).

(** [[link.url for link in links if 'Next Page' in link.text]] (line 198):
    [in] applied to a link whose text is [None] is a [TypeError]. *)
Fixpoint next_page_urls (ls : list Link) : outcome (list string) :=
  match ls with
  | [] => Return []
  | l :: ls' =>
      match link_text l with
      | None => Raise TypeError
      | Some t =>
          match next_page_urls ls' with
          | Return r => Return (if PyStr.contains "Next Page" t then link_url l :: r else r)
          | other => other
          end
      end
  end.

(** The comprehension of line 200: the [.EML] links with [self.base_href]
    removed from each; [replace(None, '')] is a [TypeError]. *)
Definition stripped_eml_urls (base : option string) (ls : list Link)
    : outcome (list string) :=
  match eml_urls ls, base with
  | [], _ => Return []
  | us, Some b => Return (map (PyStr.replace b "") us)
  | _ :: _, None => Raise TypeError
  end.

(** Lines 188-190: open the listing and take the ids of its first page. *)
Definition open_listing (folder_name : string) : M Scraper (list string) :=
  let* url := href_plus (quote folder_name ++ "/?Cmd=contents") in
  on_browser (b_open url None) >>>
  let* ls := on_browser b_links in
  ret (eml_urls ls).

(** One turn of the [while] loop (lines 198-204); it gives the new [flag],
    [last_message_urls] and [message_urls].  The extension of line 204 is
    not guarded by the comparison of line 201.  ([last_message_urls] is the
    same list object as [message_urls] only until line 203 of the first turn,
    which runs before the first [extend].) *)
Definition page_step (last_message_urls message_urls : list string)
    : M Scraper (bool * list string * list string) :=
  let* ls := on_browser b_links in
  let* nexts := lift (next_page_urls ls) in
  match nexts with
  | [] => raise IndexError
  | next_url :: _ =>
      on_browser (b_open next_url None) >>>
      let* ls' := on_browser b_links in
      let* base := gets base_href in
      let* murls := lift (stripped_eml_urls base ls') in
      let flag := negb (bool_decide (murls = last_message_urls)) in
      ret (flag, murls, (message_urls ++ murls)%list)
  end.

(** The [while flag:] loop (lines 196-204), entered with [flag = True]. *)
Fixpoint paginate (fuel : nat) (last_message_urls message_urls : list string)
    : M Scraper (list string) :=
  match fuel with
  | O => diverge
  | S fuel' =>
      let* r := page_step last_message_urls message_urls in
      if r.1.1 then paginate fuel' r.1.2 r.2 else ret r.2
  end.

(** The first [k] turns of the loop, when each of them leaves [flag] set:
    the values of [last_message_urls] and [message_urls] at the head of turn
    [k + 1].  [None] when the loop has ended before. *)
Fixpoint turns (k : nat) (last_message_urls message_urls : list string)
    : M Scraper (option (list string * list string)) :=
  match k with
  | O => ret (Some (last_message_urls, message_urls))
  | S k' =>
      let* r := page_step last_message_urls message_urls in
      if r.1.1 then turns k' r.1.2 r.2 else ret None
  end.

(** [get_folder] (lines 173-206).  [refresh] is the truth value of the
    argument.  The cache is consulted and filled through the bare names
    [find_in_cache] and [add_to_cache]. *)
Definition get_folder (fuel : nat) (folder_name : string) (refresh : bool)
    : M Scraper value :=
  let* cached := (if negb refresh then call_unbound "find_in_cache" else ret PyNone) in
  if negb refresh && truthy cached then ret cached
  else
    ensure_logged_in >>>
    let* message_urls := open_listing folder_name in
    let* page := on_browser b_response_read in
    if PyStr.contains single_page_marker page then
      call_unbound "add_to_cache" >>>
      ret (PyUrls message_urls)
    else
      let* message_urls := paginate fuel message_urls message_urls in
      call_unbound "add_to_cache" >>>
      ret (PyUrls message_urls).

(** [inbox] (lines 162-171). *)
Definition inbox (fuel : nat) (refresh : bool) : M Scraper value :=
  if refresh then get_folder fuel "Inbox" true
  else get_folder fuel "Inbox" false.

(** *** Messages *)

(** [get_message] (lines 208-221). *)
Definition get_message (msgid : string) : M Scraper value :=
  let* payload := call_unbound "find_in_cache" in
  if truthy payload then ret payload
  else
    ensure_logged_in >>>
    on_browser (b_set_addheaders [("Translate", "f")]) >>>
    let* url := href_plus (msgid ++ "?Cmd=body") in
    let* payload := on_browser (b_open url None) in
    call_unbound "add_to_cache" >>>
    ret (PyPayload payload).

(** [delete_message] (lines 223-235). *)
Definition delete_message (msgid : string) : M Scraper value :=
  ensure_logged_in >>>
  let msgid := PyStr.replace "?Cmd=open" "" msgid in
  let* url := href_plus msgid in
  let* delete := on_browser (b_open url
        (Some (urlencode [("MsgId", msgid); ("Cmd", "delete"); ("ReadForm", "1")]))) in
  call_unbound "remove_from_cache" >>>
  ret (PyPayload delete).

(** *** Public operations and reachable states *)

Inductive op : Type :=
| OpAddToCache (folder_name : option string) (message_urls : value)
               (msgid : option string) (payload : value)
| OpFindInCache (folder_name msgid : option string)
| OpRemoveFromCache (folder_name msgid : option string)
| OpFlushCache
| OpLogin
| OpInbox (fuel : nat) (refresh : bool)
| OpGetFolder (fuel : nat) (folder_name : string) (refresh : bool)
| OpGetMessage (msgid : string)
| OpDeleteMessage (msgid : string).

(** The state a call leaves behind, whatever its outcome. *)
Definition run (o : op) (s : Scraper) : Scraper :=
  match o with
  | OpAddToCache f u m p => (add_to_cache f u m p s).2
  | OpFindInCache f m => (find_in_cache f m s).2
  | OpRemoveFromCache f m => (remove_from_cache f m s).2
  | OpFlushCache => (flush_cache s).2
  | OpLogin => (login s).2
  | OpInbox fuel r => (inbox fuel r s).2
  | OpGetFolder fuel f r => (get_folder fuel f r s).2
  | OpGetMessage m => (get_message m s).2
  | OpDeleteMessage m => (delete_message m s).2
  end.

Inductive reachable : Scraper -> Prop :=
| reachable_init d u p b0 : reachable (init d u p b0)
| reachable_run o s : reachable s -> reachable (run o s).

(** *** Predicates on states *)

(** The session invariant: a logged-in scraper knows its base URL. *)
Definition logged_in_has_base (s : Scraper) : Prop :=
  is_logged_in s = true -> base_href s <> None.

Definition session_is (l : bool) (h : option string) (s : Scraper) : Prop :=
  is_logged_in s = l /\ base_href s = h.

Definition caches_are (fc mc : gmap string value) (s : Scraper) : Prop :=
  folder_cache s = fc /\ message_cache s = mc.

(** [m] keeps [I]: whatever the outcome, the state [m] leaves satisfies [I]
    when the state it started from does. *)
Definition keeps {A} (I : Scraper -> Prop) (m : M Scraper A) : Prop :=
  forall s, I s -> I (m s).2.

(** [m] returns from no state: every run raises or is cut short. *)
Definition never_returns {A} (m : M Scraper A) : Prop :=
  forall s v, (m s).1 <> Return v.

(** [I] does not look at the browser. *)
Definition blind (I : Scraper -> Prop) : Prop :=
  forall b s, I s -> I (set_browser b s).

(** [I] does not look at the caches. *)
Definition cache_blind (I : Scraper -> Prop) : Prop :=
  forall s, I s ->
    (forall fc, I (set_folder_cache fc s)) /\ (forall mc, I (set_message_cache mc s)).

(** What the specification asks of the caches after [delete_message(msgid)]
    took the scraper from [s] to [s']: the id is gone from the message cache
    and every folder entry whose listing held it is gone too. *)
Definition invalidated_by_delete (msgid : string) (s s' : Scraper) : Prop :=
  message_cache s' !! msgid = None /\
  forall f l, folder_cache s !! f = Some (PyUrls l) -> msgid ∈ l ->
              folder_cache s' !! f = None.

(** *** Further predicates *)

(** The two session attributes are set together or not at all, and a base
    URL that is set is not the empty string. *)
Definition session_consistent (s : Scraper) : Prop :=
  (is_logged_in s = true /\ exists h, base_href s = Some h /\ PyStr.truthy h = true)
  \/ (is_logged_in s = false /\ base_href s = None).

Definition credentials_are (d u p : string) (s : Scraper) : Prop :=
  domain s = d /\ username s = u /\ password s = p.

(** The calls that assign to a cache: [add_to_cache] and [flush_cache]. *)
Definition writes_cache (o : op) : bool :=
  match o with
  | OpAddToCache _ _ _ _ | OpFlushCache => true
  | _ => false
  end.

(** The state [s] with other contents in both caches. *)
Definition with_cache_contents (fc mc : gmap string value) (s : Scraper) : Scraper :=
  set_folder_cache fc (set_message_cache mc s).

(** [m] does not look at what [g] changes: run from [g s] it has the
    outcome it has from [s], and leaves [g] of the state it leaves from
    [s]. *)
Definition commutes {A} (g : Scraper -> Scraper) (m : M Scraper A) : Prop :=
  forall s, m (g s) = ((m s).1, g (m s).2).


End Scraper.

Arguments Scraper B Response : clear implicits.

(** ** A scripted browser

    A stand-in for [mechanize.Browser] that serves fixed pages by URL and
    records every request, so that the methods can be run on concrete
    folders. *)

Module Stub.

Record Page : Type := mkPage {
  page_body : string;
  page_links : list Link;
  (** form name and the URL its submission leads to *)
  page_forms : list (string * string)
}.

Inductive request : Type :=
| Get (url : string)
| Post (url data : string).

Record Browser : Type := mkBrowser {
  site : list (string * Page);
  current : option Page;
  selected : option string;
  requests : list request
}.

Fixpoint assoc {A} (k : string) (l : list (string * A)) : option A :=
  match l with
  | [] => None
  | (k', v) :: l' => if String.eqb k k' then Some v else assoc k l'
  end.

Definition fetch (r : request) (url : string) (b : Browser) : outcome string * Browser :=
  let log := (requests b ++ [r])%list in
  match assoc url (site b) with
  | Some p => (Return (page_body p), mkBrowser (site b) (Some p) None log)
  | None => (Raise (BrowserError "HTTP Error 404"), mkBrowser (site b) (current b) (selected b) log)
  end.

Definition open (url : string) (data : option string) (b : Browser)
    : outcome string * Browser :=
  match data with
  | None => fetch (Get url) url b
  | Some d => fetch (Post url d) url b
  end.

Definition select_form (name : string) (b : Browser) : outcome unit * Browser :=
  match current b with
  | Some p =>
      match assoc name (page_forms p) with
      | Some _ => (Return tt, mkBrowser (site b) (current b) (Some name) (requests b))
      | None => (Raise (BrowserError "FormNotFoundError"), b)
      end
  | None => (Raise (BrowserError "BrowserStateError"), b)
  end.

Definition set_control (name v : string) (b : Browser) : outcome unit * Browser :=
  match selected b with
  | Some _ => (Return tt, b)
  | None => (Raise (BrowserError "AttributeError"), b)
  end.

Definition submit (b : Browser) : outcome unit * Browser :=
  match current b, selected b with
  | Some p, Some f =>
      match assoc f (page_forms p) with
      | Some target =>
          match fetch (Post target f) target b with
          | (Return _, b') => (Return tt, b')
          | (Raise e, b') => (Raise e, b')
          | (Diverge, b') => (Diverge, b')
          end
      | None => (Raise (BrowserError "FormNotFoundError"), b)
      end
  | _, _ => (Raise (BrowserError "BrowserStateError"), b)
  end.

Definition response_read (b : Browser) : outcome string * Browser :=
  match current b with
  | Some p => (Return (page_body p), b)
  | None => (Raise (BrowserError "BrowserStateError"), b)
  end.

Definition links (b : Browser) : outcome (list Link) * Browser :=
  match current b with
  | Some p => (Return (page_links p), b)
  | None => (Raise (BrowserError "BrowserStateError"), b)
  end.

#[export] Instance api : BrowserAPI Browser string := {|
  b_add_password := fun _ _ _ b => (Return tt, b);
  b_open := open;
  b_select_form := select_form;
  b_set_control := set_control;
  b_submit := submit;
  b_response_read := response_read;
  b_links := links;
  b_set_addheaders := fun _ b => (Return tt, b);
  response_truthy := PyStr.truthy
|}.

(** URL helpers.  [quote] and [urlencode] percent-encode as [urllib] does
    for [str] arguments; [urlencode] takes the items in the order given;
    [urljoin] is enough for a bare host. *)
Fixpoint ends_with_slash (s : string) : bool :=
  match s with
  | EmptyString => false
  | String c EmptyString => Ascii.eqb c "/"
  | String _ s' => ends_with_slash s'
  end.

(** Letters, digits and [_.-]: the characters [urllib] never quotes. *)
Definition always_safe (c : ascii) : bool :=
  let n := nat_of_ascii c in
  (Nat.leb 48 n && Nat.leb n 57) || (Nat.leb 65 n && Nat.leb n 90)
  || (Nat.leb 97 n && Nat.leb n 122)
  || Nat.eqb n 95 || Nat.eqb n 46 || Nat.eqb n 45.

Definition hex_digit (n : nat) : ascii :=
  match n with
  | 0 => "0" | 1 => "1" | 2 => "2" | 3 => "3" | 4 => "4" | 5 => "5" | 6 => "6"
  | 7 => "7" | 8 => "8" | 9 => "9" | 10 => "A" | 11 => "B" | 12 => "C"
  | 13 => "D" | 14 => "E" | _ => "F"
  end%char.

Definition percent (c : ascii) : string :=
  String "%" (String (hex_digit (nat_of_ascii c / 16))
                     (String (hex_digit (nat_of_ascii c mod 16)) EmptyString)).

Fixpoint quote_with (safe : ascii -> bool) (s : string) : string :=
  match s with
  | EmptyString => EmptyString
  | String c s' =>
      (if always_safe c || safe c then String c EmptyString else percent c)
      ++ quote_with safe s'
  end.

(** [urllib.quote(s)], whose default [safe] is "/". *)
Definition url_quote (s : string) : string :=
  quote_with (fun c => Ascii.eqb c "/") s.

(** [urllib.quote_plus(s)]: a space becomes "+", nothing else is safe. *)
Fixpoint quote_plus (s : string) : string :=
  match s with
  | EmptyString => EmptyString
  | String c s' =>
      (if Ascii.eqb c " " then "+"
       else if always_safe c then String c EmptyString else percent c)
      ++ quote_plus s'
  end.

Fixpoint join_items (l : list (string * string)) : string :=
  match l with
  | [] => ""
  | [(k, v)] => quote_plus k ++ "=" ++ quote_plus v
  | (k, v) :: l' => quote_plus k ++ "=" ++ quote_plus v ++ "&" ++ join_items l'
  end.

#[export] Instance urls : UrlLib := {|
  urljoin := fun base rel => if ends_with_slash base then base ++ rel else base ++ "/" ++ rel;
  quote := url_quote;
  urlencode := join_items
|}.

(** *** The scripted mailbox *)

Definition host : string := "https://mail.example.com".
Definition root : string := "https://mail.example.com/exchange/".
Definition base : string := "https://mail.example.com/exchange/jo/".

Definition a_link (url text : string) : Link := mkLink url (Some text) base.

Definition logon_page (target : string) : Page :=
  mkPage "<form name=logonForm>" [] [("logonForm", target)].

Definition landing_page : Page :=
  mkPage "<base href> Inbox" [a_link "Inbox/" "Inbox"] [].

Definition rejected_page : Page :=
  mkPage "You could not be logged on to Outlook Web Access. Make sure your name and password are correct."
         [a_link "logon.asp" "Try again"] [].

Definition P1 : list string := ["Inbox/a.EML"; "Inbox/b.EML"].
Definition P2 : list string := ["Inbox/c.EML"; "Inbox/d.EML"].
Definition P3 : list string := ["Inbox/e.EML"].

Definition listing (indicator : string) (ids : list string) (next : option string) : Page :=
  mkPage indicator
         (map (fun u => a_link u "message") ids ++
          match next with
          | Some u => [a_link u "Next Page"]
          | None => []
          end)%list
         [].

Definition inbox_url : string := "https://mail.example.com/exchange/jo/Inbox/?Cmd=contents".
Definition page_url (n : string) : string := inbox_url ++ "&Page=" ++ n.

(** A mailbox whose Inbox is served as [P1], [P2], [P3], and [P3] again
    for the page after the last. *)
Definition three_page_site : list (string * Page) :=
  [ (root, logon_page "auth");
    ("auth", landing_page);
    (inbox_url, listing "Page 1&nbsp;of&nbsp;3" P1 (Some (page_url "2")));
    (page_url "2", listing "Page 2&nbsp;of&nbsp;3" P2 (Some (page_url "3")));
    (page_url "3", listing "Page 3&nbsp;of&nbsp;3" P3 (Some (page_url "4")));
    (page_url "4", listing "Page 3&nbsp;of&nbsp;3" P3 (Some (page_url "4")));
    (base ++ "Inbox/a.EML", mkPage "moved" [] []) ].

(** A mailbox whose Inbox fits on one page. *)
Definition one_page_site : list (string * Page) :=
  [ (root, logon_page "auth");
    ("auth", landing_page);
    (inbox_url, listing "Page 1&nbsp;of&nbsp;1" P1 None) ].


(** A server that rejects the credentials. *)
Definition rejecting_site : list (string * Page) :=
  [ (root, logon_page "auth");
    ("auth", rejected_page) ].

Definition fresh (pages : list (string * Page)) : Scraper Browser string :=
  init host "jo" "secret" (mkBrowser pages None None []).

(** The scraper after a successful [login()]. *)
Definition logged_in (pages : list (string * Page)) : Scraper Browser string :=
  run OpLogin (fresh pages).

(** A logged-in scraper whose caches were filled through the public
    [add_to_cache]: the Inbox listing [P1] and the body of its first
    message. *)
Definition with_caches (pages : list (string * Page)) : Scraper Browser string :=
  run (OpAddToCache None PyNone (Some "Inbox/a.EML") (PyPayload "Subject: hello"))
      (run (OpAddToCache (Some "Inbox") (PyUrls P1) None PyNone) (logged_in pages)).

(** *** Further scripted mailboxes *)

(** The landing page has no link at all. *)
Definition no_links_site : list (string * Page) :=
  [ (root, logon_page "auth");
    ("auth", mkPage "Welcome" [] []) ].

(** The first link of the landing page carries no base URL. *)
Definition no_base_site : list (string * Page) :=
  [ (root, logon_page "auth");
    ("auth", mkPage "Welcome" [mkLink "Inbox/" (Some "Inbox") ""] []) ].

(** The server lets the request in by its credentials and shows the mailbox
    at once: there is no logon form. *)
Definition no_form_site : list (string * Page) :=
  [ (root, landing_page) ].

(** A twelve-page Inbox. *)
Definition twelve_page_site : list (string * Page) :=
  [ (root, logon_page "auth");
    ("auth", landing_page);
    (inbox_url, listing "Page 1&nbsp;of&nbsp;12" P1 (Some (page_url "2")));
    (page_url "2", listing "Page 2&nbsp;of&nbsp;12" P2 (Some (page_url "3"))) ].

(** A listing page that also holds a link without text. *)
Definition logo_link : Link := mkLink "logo.gif" None base.

Definition textless_site : list (string * Page) :=
  [ (root, logon_page "auth");
    ("auth", landing_page);
    (inbox_url,
     mkPage "Page 1&nbsp;of&nbsp;3"
            [a_link "Inbox/a.EML" "message"; logo_link; a_link (page_url "2") "Next Page"]
            []) ].

(** A logged-in scraper that has cached an empty listing for "Drafts". *)
Definition with_empty_listing : Scraper Browser string :=
  run (OpAddToCache (Some "Drafts") (PyUrls []) None PyNone) (logged_in one_page_site).




End Stub.


(** * Properties *)

(** ** The string operations on examples *)

Example contains_marker :
  PyStr.contains "&nbsp;of&nbsp;1" "Page 1&nbsp;of&nbsp;1" = true
  /\ PyStr.contains "&nbsp;of&nbsp;1" "Page 1&nbsp;of&nbsp;3" = false
  /\ PyStr.contains ".EML" "Inbox/a.EML?Cmd=open" = true.
Proof. repeat split. Qed.

Example replace_examples :
  PyStr.replace "?Cmd=open" "" "Inbox/a.EML?Cmd=open" = "Inbox/a.EML"
  /\ PyStr.replace "bc" "X" "abcabc" = "aXaX"
  /\ PyStr.replace "aa" "b" "aaa" = "ba"
  /\ PyStr.replace "" "-" "abc" = "-a-b-c-"
  /\ PyStr.replace "https://h/x/" "" "https://h/x/Inbox/a.EML" = "Inbox/a.EML".
Proof. repeat split. Qed.

Section Facts.

Context {B Response : Type} `{!BrowserAPI B Response} `{!UrlLib}.

Implicit Types (s : Scraper B Response) (I : Scraper B Response -> Prop).

(** ** The monad *)

Lemma bind_return {A C} (m : M (Scraper B Response) A) (f : A -> M (Scraper B Response) C) s a s1 :
  m s = (Return a, s1) -> bind m f s = f a s1.
Proof. intros Hm. unfold bind. now rewrite Hm. Qed.

Lemma bind_raise {A C} (m : M (Scraper B Response) A) (f : A -> M (Scraper B Response) C) s e s1 :
  m s = (Raise e, s1) -> bind m f s = (Raise e, s1).
Proof. intros Hm. unfold bind. now rewrite Hm. Qed.

(** ** Preservation of state predicates *)

Lemma keeps_ret {A} I (a : A) : keeps I (ret a).
Proof. intros s Hs. exact Hs. Qed.

Lemma keeps_raise {A} I e : keeps (A := A) I (raise e).
Proof. intros s Hs. exact Hs. Qed.

Lemma keeps_diverge {A} I : keeps (A := A) I diverge.
Proof. intros s Hs. exact Hs. Qed.

Lemma keeps_lift {A} I (o : outcome A) : keeps I (lift o).
Proof. intros s Hs. exact Hs. Qed.

Lemma keeps_gets {A} I (f : Scraper B Response -> A) : keeps I (gets f).
Proof. intros s Hs. exact Hs. Qed.

Lemma keeps_call_unbound I name : keeps I (call_unbound name).
Proof. intros s Hs. exact Hs. Qed.

Lemma keeps_bind {A C} I (m : M (Scraper B Response) A) (f : A -> M (Scraper B Response) C) :
  keeps I m -> (forall a, keeps I (f a)) -> keeps I (bind m f).
Proof.
  intros Hm Hf s Hs. unfold bind.
  specialize (Hm s Hs).
  destruct (m s) as [[a | e |] s1]; simpl in *; try assumption.
  now apply Hf.
Qed.

Lemma keeps_on_browser {A} I (op : B -> outcome A * B) :
  blind I -> keeps I (on_browser op).
Proof.
  intros HI s Hs. unfold on_browser.
  destruct (op (browser s)) as [r b']. simpl. now apply HI.
Qed.

Lemma keeps_if {A} I (c : bool) (m1 m2 : M (Scraper B Response) A) :
  keeps I m1 -> keeps I m2 -> keeps I (if c then m1 else m2).
Proof. now destruct c. Qed.

Create HintDb keeps discriminated.

#[local] Hint Resolve keeps_ret keeps_raise keeps_diverge keeps_lift keeps_gets
  keeps_call_unbound keeps_on_browser keeps_if : keeps.

(** Peels the binds of a method body and closes the leaves by the hints. *)
Ltac keeps_steps :=
  repeat first
    [ assumption
    | solve [eauto with keeps]
    | apply keeps_bind; [| intros ?]
    | apply keeps_if
    | match goal with
      | |- keeps _ (match ?x with _ => _ end) => destruct x
      end ].

Lemma blind_session l h : blind (session_is (B := B) (Response := Response) l h).
Proof. intros b s Hs. exact Hs. Qed.

Lemma blind_caches (fc mc : gmap string (pyval Response)) :
  blind (caches_are (B := B) fc mc).
Proof. intros b s Hs. exact Hs. Qed.

Lemma blind_invariant : blind (logged_in_has_base (B := B) (Response := Response)).
Proof. intros b s Hs. exact Hs. Qed.

#[local] Hint Resolve blind_session blind_caches blind_invariant : keeps.

Lemma keeps_login_page I : blind I -> keeps I login_page.
Proof. intros HI. unfold login_page. keeps_steps. Qed.

Lemma keeps_href_plus I rest : keeps I (href_plus rest).
Proof. unfold href_plus. keeps_steps. Qed.

Lemma keeps_open_listing I name : blind I -> keeps I (open_listing name).
Proof. intros HI. unfold open_listing. pose proof keeps_href_plus. keeps_steps. Qed.

Lemma keeps_page_step I last acc : blind I -> keeps I (page_step last acc).
Proof. intros HI. unfold page_step. keeps_steps. Qed.

Lemma keeps_paginate I fuel : blind I -> forall last acc, keeps I (paginate fuel last acc).
Proof.
  intros HI. induction fuel as [| fuel IH]; intros last acc; simpl.
  - apply keeps_diverge.
  - apply keeps_bind; [now apply keeps_page_step |].
    intros r. destruct (r.1.1); [apply IH | apply keeps_ret].
Qed.

Lemma keeps_turns I k : blind I -> forall last acc, keeps I (turns k last acc).
Proof.
  intros HI. induction k as [| k IH]; intros last acc; simpl.
  - apply keeps_ret.
  - apply keeps_bind; [now apply keeps_page_step |].
    intros r. destruct (r.1.1); [apply IH | apply keeps_ret].
Qed.

Lemma keeps_modify I (f : Scraper B Response -> Scraper B Response) :
  (forall s, I s -> I (f s)) -> keeps I (modify f).
Proof. intros Hf s Hs. now apply Hf. Qed.

Lemma keeps_dict_get I d k : keeps I (dict_get d k).
Proof. intros s Hs. unfold dict_get. now destruct (d s !! k). Qed.

Lemma keeps_del_message I k : cache_blind I -> keeps I (del_message k).
Proof.
  intros HI s Hs. unfold del_message.
  destruct (message_cache s !! k); simpl; [now apply HI | assumption].
Qed.

Lemma keeps_del_folder I k : cache_blind I -> keeps I (del_folder k).
Proof.
  intros HI s Hs. unfold del_folder.
  destruct (folder_cache s !! k); simpl; [now apply HI | assumption].
Qed.

Lemma keeps_del_messages I ids : cache_blind I -> keeps I (del_messages ids).
Proof.
  intros HI. induction ids as [| id ids IH]; simpl.
  - apply keeps_ret.
  - apply keeps_bind; [now apply keeps_del_message | intros _; exact IH].
Qed.

Lemma find_in_cache_state folder_name msgid s : (find_in_cache folder_name msgid s).2 = s.
Proof.
  unfold find_in_cache.
  repeat match goal with
         | |- context [if ?c then _ else _] => destruct c
         | |- context [match ?m !! ?k with _ => _ end] => destruct (m !! k)
         end; reflexivity.
Qed.

Lemma keeps_find_in_cache I folder_name msgid : keeps I (find_in_cache folder_name msgid).
Proof. intros s Hs. now rewrite find_in_cache_state. Qed.

#[local] Hint Resolve keeps_dict_get keeps_del_message keeps_del_folder
  keeps_del_messages keeps_find_in_cache : keeps.

Lemma keeps_add_to_cache I folder_name message_urls msgid payload :
  cache_blind I -> keeps I (add_to_cache folder_name message_urls msgid payload).
Proof.
  intros HI. unfold add_to_cache.
  keeps_steps; apply keeps_modify; intros st Hst; now apply HI.
Qed.

Lemma keeps_remove_folder_part I folder_name :
  cache_blind I -> keeps I (remove_folder_part folder_name).
Proof. intros HI. unfold remove_folder_part. keeps_steps. Qed.

Lemma keeps_remove_from_cache I folder_name msgid :
  cache_blind I -> keeps I (remove_from_cache folder_name msgid).
Proof.
  intros HI. unfold remove_from_cache.
  pose proof (keeps_remove_folder_part I folder_name HI). keeps_steps.
Qed.

Lemma keeps_flush_cache I : cache_blind I -> keeps I flush_cache.
Proof.
  intros HI. unfold flush_cache.
  keeps_steps; apply keeps_modify; intros st Hst; now apply HI.
Qed.

Lemma cache_blind_session l h :
  cache_blind (session_is (B := B) (Response := Response) l h).
Proof. intros s Hs. split; intros; exact Hs. Qed.

Lemma cache_blind_invariant :
  cache_blind (logged_in_has_base (B := B) (Response := Response)).
Proof. intros s Hs. split; intros; exact Hs. Qed.

(** ** [login] *)

(** The two ways [login] can end: it returns with both session attributes
    set, or it does not return and has written neither. *)
Lemma login_cases s :
  ((login s).1 = Return tt /\ is_logged_in (login s).2 = true /\
   exists h, base_href (login s).2 = Some h /\ PyStr.truthy h = true)
  \/
  ((login s).1 <> Return tt /\
   session_is (is_logged_in s) (base_href s) (login s).2).
Proof.
  pose proof (keeps_login_page _ (blind_session (is_logged_in s) (base_href s)) s
                (conj eq_refl eq_refl)) as Hpage.
  unfold login, bind.
  destruct (login_page s) as [[page | e |] s1]; simpl in Hpage;
    [| right; split; [discriminate | exact Hpage] ..].
  destruct (PyStr.contains failure_marker page);
    [right; split; [discriminate | exact Hpage] |].
  unfold on_browser.
  destruct (b_links (browser s1)) as [[ls | e |] b1];
    [| right; split; [discriminate | exact Hpage] ..].
  destruct ls as [| m ls]; [right; split; [discriminate | exact Hpage] |].
  destruct (PyStr.truthy (link_base_url m)) eqn:Hm; simpl.
  - left. repeat split. exists (link_base_url m). now split.
  - right. split; [discriminate | exact Hpage].
Qed.

Lemma login_keeps_invariant : keeps (B := B) (Response := Response) logged_in_has_base login.
Proof.
  intros s Hs. destruct (login_cases s) as [(_ & _ & h & Hh & _) | (_ & Hl & Hb)].
  - intros _. now rewrite Hh.
  - unfold logged_in_has_base. now rewrite Hl, Hb.
Qed.

Lemma login_keeps_caches (fc mc : gmap string (pyval Response)) :
  keeps (caches_are fc mc) login.
Proof.
  unfold login. pose proof (keeps_login_page _ (blind_caches fc mc)).
  keeps_steps; apply keeps_modify; intros st Hst; exact Hst.
Qed.


(** ** Methods that may log in *)

(** A predicate that [login] keeps and that looks neither at the browser
    nor at the caches is kept by every method. *)
Section Kept.

Variable I : Scraper B Response -> Prop.
Hypothesis I_blind : blind I.
Hypothesis I_login : keeps I login.

Lemma keeps_ensure_logged_in : keeps I ensure_logged_in.
Proof. unfold ensure_logged_in. keeps_steps. Qed.

Lemma keeps_get_folder fuel name refresh : keeps I (get_folder fuel name refresh).
Proof.
  unfold get_folder.
  pose proof keeps_ensure_logged_in.
  pose proof (keeps_open_listing I name I_blind).
  pose proof (fun l a => keeps_paginate I fuel I_blind l a).
  keeps_steps.
Qed.

Lemma keeps_inbox fuel refresh : keeps I (inbox fuel refresh).
Proof. unfold inbox. destruct refresh; apply keeps_get_folder. Qed.

Lemma keeps_get_message msgid : keeps I (get_message msgid).
Proof.
  unfold get_message.
  pose proof keeps_ensure_logged_in. pose proof (keeps_href_plus I).
  keeps_steps.
Qed.

Lemma keeps_delete_message msgid : keeps I (delete_message msgid).
Proof.
  unfold delete_message.
  pose proof keeps_ensure_logged_in. pose proof (keeps_href_plus I).
  keeps_steps.
Qed.

Lemma run_keeps o s : cache_blind I -> I s -> I (run o s).
Proof.
  intros I_cache Hs. destruct o; cbn [run].
  - now apply keeps_add_to_cache.
  - now apply keeps_find_in_cache.
  - now apply keeps_remove_from_cache.
  - now apply keeps_flush_cache.
  - now apply I_login.
  - now apply keeps_inbox.
  - now apply keeps_get_folder.
  - now apply keeps_get_message.
  - now apply keeps_delete_message.
Qed.

End Kept.

(** ** The [while] loop *)

Lemma paginate_after_turns k fuel last acc s last' acc' s' :
  turns k last acc s = (Return (Some (last', acc')), s') ->
  paginate (k + fuel) last acc s = paginate fuel last' acc' s'.
Proof.
  revert last acc s. induction k as [| k IH]; intros last acc s Hk; simpl in *.
  - unfold ret in Hk. now inversion Hk.
  - unfold bind in *.
    destruct (page_step last acc s) as [[r | e |] s1]; try discriminate.
    destruct (r.1.1); [now apply IH | discriminate].
Qed.


Lemma get_folder_refresh_unfold fuel name s :
  get_folder fuel name true s =
  (ensure_logged_in >>>
   let* message_urls := open_listing name in
   let* page := on_browser b_response_read in
   if PyStr.contains single_page_marker page then
     call_unbound "add_to_cache" >>> ret (PyUrls message_urls)
   else
     let* message_urls := paginate fuel message_urls message_urls in
     call_unbound "add_to_cache" >>> ret (PyUrls message_urls)) s.
Proof. reflexivity. Qed.


(** ** Methods that cannot return

    The three methods that use the caches end, on every path that gets that
    far, in a call of a cache helper by its bare name. *)

Lemma never_returns_call_unbound name :
  never_returns (B := B) (Response := Response) (call_unbound name).
Proof. intros s v. discriminate. Qed.

Lemma never_returns_first {A C} (m : M (Scraper B Response) A)
    (f : A -> M (Scraper B Response) C) :
  never_returns m -> never_returns (bind m f).
Proof.
  intros Hm s v. unfold bind. specialize (Hm s).
  destruct (m s) as [[a | e |] s1]; simpl in *; [| discriminate ..].
  now destruct (Hm a).
Qed.

Lemma never_returns_then {A C} (m : M (Scraper B Response) A)
    (f : A -> M (Scraper B Response) C) :
  (forall a, never_returns (f a)) -> never_returns (bind m f).
Proof.
  intros Hf s v. unfold bind.
  destruct (m s) as [[a | e |] s1]; simpl; [apply Hf | discriminate ..].
Qed.

Lemma get_folder_never_returns fuel name refresh :
  never_returns (B := B) (Response := Response) (get_folder fuel name refresh).
Proof.
  unfold get_folder. destruct refresh; simpl.
  - apply never_returns_then; intros cached. simpl.
    do 3 (apply never_returns_then; intros ?).
    destruct (PyStr.contains single_page_marker _).
    + apply never_returns_first, never_returns_call_unbound.
    + apply never_returns_then; intros ?.
      apply never_returns_first, never_returns_call_unbound.
  - apply never_returns_first, never_returns_call_unbound.
Qed.

Lemma get_message_never_returns msgid : never_returns (B := B) (Response := Response) (get_message msgid).
Proof. apply never_returns_first, never_returns_call_unbound. Qed.

Lemma delete_message_never_returns msgid :
  never_returns (B := B) (Response := Response) (delete_message msgid).
Proof.
  unfold delete_message.
  do 3 (apply never_returns_then; intros ?).
  apply never_returns_first, never_returns_call_unbound.
Qed.

(** ** The claims *)

(** C9: in every state reachable from the constructor by the public
    methods, [is_logged_in] implies that [base_href] is set. *)
Theorem logged_in_implies_base_href s :
  reachable s -> is_logged_in s = true -> is_Some (base_href s).
Proof.
  intros Hr Hin.
  assert (logged_in_has_base s) as Hinv.
  { clear Hin. induction Hr as [d u p b0 | o s Hr IH].
    - intros Hin. discriminate Hin.
    - apply run_keeps; auto using blind_invariant, login_keeps_invariant,
        cache_blind_invariant. }
  specialize (Hinv Hin). destruct (base_href s); [eauto | contradiction].
Qed.


(** C3 (the code raises instead): once a listing is stored under a folder
    name, [get_folder(name)] without [refresh] raises [NameError] at its
    cache lookup (line 182) and leaves the state as it was. *)
Theorem get_folder_cached_listing_raises fuel name urls s :
  get_folder fuel name false (add_to_cache (Some name) (PyUrls urls) None PyNone s).2
  = (Raise (NameError "find_in_cache"),
     (add_to_cache (Some name) (PyUrls urls) None PyNone s).2).
Proof. reflexivity. Qed.

(** C10 (the code raises instead): once a payload is stored under a message
    id, [get_message(id)] raises [NameError] at its cache lookup (line 211)
    and leaves the state as it was. *)
Theorem get_message_cached_payload_raises msgid payload s :
  get_message msgid (add_to_cache None PyNone (Some msgid) payload s).2
  = (Raise (NameError "find_in_cache"),
     (add_to_cache None PyNone (Some msgid) payload s).2).
Proof. reflexivity. Qed.

(** C6 (the code raises instead): [remove_from_cache] called with a
    non-empty folder name raises [NameError] at a cache lookup (line 122 or
    129) and removes nothing; and the loop of lines 132-133 raises
    [KeyError] on an id that the message cache does not hold, as on any id
    after [flush_cache()]. *)
Theorem remove_from_cache_folder_raises c f msgid s :
  remove_from_cache (Some (String c f)) msgid s = (Raise (NameError "find_in_cache"), s)
  /\ forall id ids,
      del_messages (id :: ids) (flush_cache s).2 = (Raise (KeyError id), (flush_cache s).2).
Proof.
  split.
  - unfold remove_from_cache. destruct msgid as [[| c' m] |]; reflexivity.
  - intros id ids. reflexivity.
Qed.

(** C2, amended: [delete_message] leaves the folder cache exactly as it
    was, whatever its outcome: no cached listing is invalidated.  What it
    does on a logged-in scraper is one call of the browser, the POST of the
    deletion to [base_href] followed by the id without its "?Cmd=open"; an
    exception of that request is the outcome of the call. *)
Theorem delete_message_posts_and_keeps_folder_cache msgid s :
  folder_cache (delete_message msgid s).2 = folder_cache s
  /\ forall h,
      is_logged_in s = true ->
      base_href s = Some h ->
      browser (delete_message msgid s).2
      = (b_open (h ++ PyStr.replace "?Cmd=open" "" msgid)
           (Some (urlencode [("MsgId", PyStr.replace "?Cmd=open" "" msgid);
                             ("Cmd", "delete"); ("ReadForm", "1")]))
           (browser s)).2
      /\ forall e,
          (b_open (h ++ PyStr.replace "?Cmd=open" "" msgid)
             (Some (urlencode [("MsgId", PyStr.replace "?Cmd=open" "" msgid);
                               ("Cmd", "delete"); ("ReadForm", "1")]))
             (browser s)).1 = Raise e ->
          (delete_message msgid s).1 = Raise e.
Proof.
  split.
  - apply (keeps_delete_message (caches_are (folder_cache s) (message_cache s))
             (blind_caches _ _) (login_keeps_caches _ _) msgid s).
    now split.
  - intros h Hin Hh.
    assert (ensure_logged_in s = (Return tt, s)) as Hg.
    { unfold ensure_logged_in, bind, gets. now rewrite Hin. }
    unfold delete_message. rewrite (bind_return _ _ _ _ _ Hg).
    unfold href_plus, bind, gets, on_browser. rewrite Hh. cbn.
    destruct (b_open _ _ (browser s)) as [[r | e' |] b']; cbn;
      (split; [reflexivity | intros e He; congruence]).
Qed.


(** C8, amended: the folder cache is keyed by the name exactly as given.
    [add_to_cache] under a non-empty name returns the listing it stores,
    [find_in_cache] under the same name finds it, and a lookup under any
    other string gives what it gave before the store. *)
Theorem folder_cache_key_is_exact c f urls other s :
  other <> String c f ->
  (add_to_cache (Some (String c f)) urls None PyNone s).1 = Return urls
  /\ (find_in_cache (Some (String c f)) None
        (add_to_cache (Some (String c f)) urls None PyNone s).2).1 = Return urls
  /\ (find_in_cache (Some other) None
        (add_to_cache (Some (String c f)) urls None PyNone s).2).1
     = (find_in_cache (Some other) None s).1.
Proof.
  intros Hne.
  unfold add_to_cache, find_in_cache, bind, modify, dict_get. simpl.
  rewrite lookup_insert_eq. simpl. rewrite lookup_insert_eq.
  repeat split.
  destruct (PyStr.truthy other); [| reflexivity].
  rewrite lookup_insert_ne by congruence.
  now destruct (folder_cache s !! other).
Qed.

(** ** Further properties of the session *)

Lemma blind_consistent : blind (session_consistent (B := B) (Response := Response)).
Proof. intros b s Hs. exact Hs. Qed.

Lemma cache_blind_consistent :
  cache_blind (session_consistent (B := B) (Response := Response)).
Proof. intros s Hs. split; intros; exact Hs. Qed.

Lemma login_keeps_consistent :
  keeps (B := B) (Response := Response) session_consistent login.
Proof.
  intros s Hs. destruct (login_cases s) as [(_ & Hin & h & Hh & Ht) | (_ & Hl & Hb)].
  - left. split; [exact Hin |]. now exists h.
  - unfold session_consistent. now rewrite Hl, Hb.
Qed.

Lemma reachable_consistent s : reachable s -> session_consistent s.
Proof.
  induction 1 as [d u p b0 | o s Hr IH].
  - right. now split.
  - apply run_keeps; auto using blind_consistent, login_keeps_consistent,
      cache_blind_consistent.
Qed.

(** X1: in every reachable state [is_logged_in] holds exactly when
    [base_href] is set, and a base URL that is set is not empty. *)
Theorem logged_in_iff_base_href s :
  reachable s ->
  (is_logged_in s = true <-> is_Some (base_href s))
  /\ forall h, base_href s = Some h -> h <> "".
Proof.
  intros Hr.
  destruct (reachable_consistent s Hr) as [(Hin & h & Hh & Ht) | (Hout & Hb)].
  - split.
    + split; [intros _; rewrite Hh; eauto | intros _; exact Hin].
    + intros h' Hh'. rewrite Hh in Hh'. injection Hh' as <-.
      intros ->. discriminate Ht.
  - split.
    + split; [intros Hin; congruence | intros [h Hh]; congruence].
    + intros h Hh. congruence.
Qed.

Lemma blind_logged_in :
  blind (fun s : Scraper B Response => is_logged_in s = true).
Proof. intros b s Hs. exact Hs. Qed.

Lemma cache_blind_logged_in :
  cache_blind (fun s : Scraper B Response => is_logged_in s = true).
Proof. intros s Hs. split; intros; exact Hs. Qed.

Lemma login_keeps_logged_in :
  keeps (fun s : Scraper B Response => is_logged_in s = true) login.
Proof.
  intros s Hs. destruct (login_cases s) as [(_ & Hin & _) | (_ & Hl & _)].
  - exact Hin.
  - now rewrite Hl.
Qed.

(** Past the login guard.  A predicate that the guard keeps and that does
    not look at the browser is kept by the methods that start with it. *)
Section PastGuard.

Variable I : Scraper B Response -> Prop.
Hypothesis I_blind : blind I.
Hypothesis I_guard : keeps I ensure_logged_in.

Lemma guard_keeps_get_folder fuel name refresh : keeps I (get_folder fuel name refresh).
Proof.
  unfold get_folder.
  pose proof (keeps_open_listing I name I_blind).
  pose proof (fun l a => keeps_paginate I fuel I_blind l a).
  keeps_steps.
Qed.

Lemma guard_keeps_inbox fuel refresh : keeps I (inbox fuel refresh).
Proof. unfold inbox. destruct refresh; apply guard_keeps_get_folder. Qed.

Lemma guard_keeps_get_message msgid : keeps I (get_message msgid).
Proof. unfold get_message. pose proof (keeps_href_plus I). keeps_steps. Qed.

Lemma guard_keeps_delete_message msgid : keeps I (delete_message msgid).
Proof. unfold delete_message. pose proof (keeps_href_plus I). keeps_steps. Qed.

End PastGuard.

Lemma guard_skipped s : is_logged_in s = true -> ensure_logged_in s = (Return tt, s).
Proof.
  intros Hin. unfold ensure_logged_in, bind, gets. now rewrite Hin.
Qed.

Lemma guard_keeps_session h :
  keeps (session_is (B := B) (Response := Response) true h) ensure_logged_in.
Proof. intros s Hs. rewrite guard_skipped; [exact Hs | apply Hs]. Qed.

(** X2: no method logs out.  On a logged-in scraper every call leaves
    [is_logged_in] set, and every call but [login()] leaves [base_href] as
    it was. *)
Theorem logged_in_is_stable o s :
  is_logged_in s = true ->
  is_logged_in (run o s) = true
  /\ (o <> OpLogin -> base_href (run o s) = base_href s).
Proof.
  intros Hin. split.
  - apply (run_keeps _ blind_logged_in login_keeps_logged_in o s
             cache_blind_logged_in Hin).
  - intros Ho.
    assert (session_is true (base_href s) s) as Hs by now split.
    pose proof (blind_session true (base_href s)) as Hb.
    pose proof (cache_blind_session true (base_href s)) as Hc.
    pose proof (guard_keeps_session (base_href s)) as Hg.
    destruct o; cbn [run]; try congruence.
    + exact (proj2 (keeps_add_to_cache _ _ _ _ _ Hc s Hs)).
    + exact (proj2 (keeps_find_in_cache _ _ _ s Hs)).
    + exact (proj2 (keeps_remove_from_cache _ _ _ Hc s Hs)).
    + exact (proj2 (keeps_flush_cache _ Hc s Hs)).
    + exact (proj2 (guard_keeps_inbox _ Hb Hg _ _ s Hs)).
    + exact (proj2 (guard_keeps_get_folder _ Hb Hg _ _ _ s Hs)).
    + exact (proj2 (guard_keeps_get_message _ Hb Hg _ s Hs)).
    + exact (proj2 (guard_keeps_delete_message _ Hb Hg _ s Hs)).
Qed.

Lemma blind_credentials d u p :
  blind (credentials_are (B := B) (Response := Response) d u p).
Proof. intros b s Hs. exact Hs. Qed.

Lemma cache_blind_credentials d u p :
  cache_blind (credentials_are (B := B) (Response := Response) d u p).
Proof. intros s Hs. split; intros; exact Hs. Qed.

Lemma login_keeps_credentials d u p :
  keeps (credentials_are (B := B) (Response := Response) d u p) login.
Proof.
  unfold login. pose proof (keeps_login_page _ (blind_credentials d u p)).
  pose proof (blind_credentials d u p).
  keeps_steps; apply keeps_modify; intros st Hst; exact Hst.
Qed.

(** X3: the credentials are fixed by the constructor: no method changes
    [domain], [username] or [password]. *)
Theorem credentials_never_change o s :
  domain (run o s) = domain s
  /\ username (run o s) = username s
  /\ password (run o s) = password s.
Proof.
  apply (run_keeps _ (blind_credentials _ _ _) (login_keeps_credentials _ _ _) o s
           (cache_blind_credentials _ _ _)).
  now repeat split.
Qed.

(** ** Further properties of the caches *)

(** What [remove_from_cache] does as it is written: with a truthy argument
    it stops at its first lookup, without one it returns [False]. *)
Lemma remove_from_cache_outcome folder_name msgid s :
  remove_from_cache folder_name msgid s
  = if arg_truthy msgid || arg_truthy folder_name
    then (Raise (NameError "find_in_cache"), s)
    else (Return (PyBool false), s).
Proof.
  unfold remove_from_cache, remove_folder_part.
  destruct (arg_truthy msgid), (arg_truthy folder_name); reflexivity.
Qed.

(** X4: the caches are written by [add_to_cache] and [flush_cache] only.
    Every other call, [remove_from_cache] included, leaves both caches as
    they were, whatever its outcome. *)
Theorem caches_written_only_by_add_and_flush o s :
  writes_cache o = false ->
  folder_cache (run o s) = folder_cache s
  /\ message_cache (run o s) = message_cache s.
Proof.
  intros Ho.
  assert (caches_are (folder_cache s) (message_cache s) s) as Hs by now split.
  pose proof (blind_caches (folder_cache s) (message_cache s)) as Hb.
  pose proof (login_keeps_caches (folder_cache s) (message_cache s)) as Hl.
  destruct o; try discriminate Ho; cbn [run].
  - now rewrite find_in_cache_state.
  - rewrite remove_from_cache_outcome.
    now destruct (arg_truthy msgid || arg_truthy folder_name).
  - now apply Hl.
  - now apply keeps_inbox.
  - now apply keeps_get_folder.
  - now apply keeps_get_message.
  - now apply keeps_delete_message.
Qed.

(** X5: in a reachable state, once the login guard has let a method
    through, [base_href] is a string: [self.base_href + rest] gives that
    string followed by [rest] and cannot fail on [None]. *)
Theorem base_href_known_past_guard s s0 :
  reachable s ->
  ensure_logged_in s = (Return tt, s0) ->
  exists h, base_href s0 = Some h
            /\ forall rest, href_plus rest s0 = (Return (h ++ rest), s0).
Proof.
  intros Hr Hg.
  assert (exists h, base_href s0 = Some h) as [h Hh].
  { unfold ensure_logged_in, bind, gets in Hg.
    destruct (is_logged_in s) eqn:Hin.
    - injection Hg as <-.
      destruct (reachable_consistent s Hr) as [(_ & h & Hh & _) | (Hout & _)];
        [eauto | congruence].
    - destruct (login_cases s) as [(_ & _ & h & Hh & _) | (Hne & _)].
      + rewrite Hg in Hh. eauto.
      + rewrite Hg in Hne. now destruct Hne. }
  exists h. split; [exact Hh |].
  intros rest. unfold href_plus, bind, gets. now rewrite Hh.
Qed.

(** ** Further properties of [login] *)

(** X6: when the page after the logon form does not hold the failure
    marker and its first link carries a non-empty base URL, [login()]
    returns, having set [base_href] to that URL and [is_logged_in]; the
    caches are as they were. *)
Theorem login_sets_session s page s1 m ls s2 :
  login_page s = (Return page, s1) ->
  PyStr.contains failure_marker page = false ->
  on_browser b_links s1 = (Return (m :: ls), s2) ->
  link_base_url m <> "" ->
  login s = (Return tt, set_is_logged_in true (set_base_href (Some (link_base_url m)) s2))
  /\ folder_cache s2 = folder_cache s
  /\ message_cache s2 = message_cache s.
Proof.
  intros Hpage Hmark Hlinks Hbase. split.
  - unfold login. rewrite (bind_return _ _ _ _ _ Hpage), Hmark.
    rewrite (bind_return _ _ _ _ _ Hlinks).
    destruct (link_base_url m); [contradiction | reflexivity].
  - pose proof (keeps_login_page _ (blind_caches (folder_cache s) (message_cache s)) s
                  (conj eq_refl eq_refl)) as H1.
    rewrite Hpage in H1.
    pose proof (keeps_on_browser _ b_links
                  (blind_caches (folder_cache s) (message_cache s)) s1 H1) as H2.
    rewrite Hlinks in H2. exact H2.
Qed.

(** X7: on a landing page without links [login()] raises [StopIteration],
    and on one whose first link has an empty base URL it raises
    [RetrievalError]; either way the scraper stays as logged in or out as it
    was. *)
Theorem login_without_base_url s page s1 ls s2 :
  login_page s = (Return page, s1) ->
  PyStr.contains failure_marker page = false ->
  on_browser b_links s1 = (Return ls, s2) ->
  match ls with [] => True | m :: _ => link_base_url m = "" end ->
  login s
  = (Raise match ls with
           | [] => StopIteration
           | _ :: _ => RetrievalError "Couldn't find <base href> on page after logging in."
           end, s2)
  /\ is_logged_in s2 = is_logged_in s
  /\ base_href s2 = base_href s.
Proof.
  intros Hpage Hmark Hlinks Hls.
  assert (login s
          = (Raise match ls with
                   | [] => StopIteration
                   | _ :: _ =>
                       RetrievalError "Couldn't find <base href> on page after logging in."
                   end, s2)) as Hrun.
  { unfold login. rewrite (bind_return _ _ _ _ _ Hpage), Hmark.
    rewrite (bind_return _ _ _ _ _ Hlinks).
    destruct ls as [| m ls]; [reflexivity |]. now rewrite Hls. }
  split; [exact Hrun |].
  destruct (login_cases s) as [(Hret & _) | (_ & Hl & Hb)].
  - rewrite Hrun in Hret. discriminate Hret.
  - rewrite Hrun in Hl, Hb. now split.
Qed.

(** X8: a [login()] that does not return has changed nothing but the
    browser: the session attributes and both caches are as before.  In
    particular an exception of the browser during the logon surfaces from
    [login()] as it is. *)
Theorem failed_login_changes_nothing s :
  (login s).1 <> Return tt ->
  is_logged_in (login s).2 = is_logged_in s
  /\ base_href (login s).2 = base_href s
  /\ folder_cache (login s).2 = folder_cache s
  /\ message_cache (login s).2 = message_cache s
  /\ forall e s1, login_page s = (Raise e, s1) -> login s = (Raise e, s1).
Proof.
  intros Hfail.
  destruct (login_cases s) as [(Hret & _) | (_ & Hl & Hb)]; [contradiction |].
  destruct (login_keeps_caches (folder_cache s) (message_cache s) s
              (conj eq_refl eq_refl)) as [Hfc Hmc].
  repeat split; try assumption.
  intros e s1 Hpage. unfold login. now apply bind_raise.
Qed.

(** X9: a failed automatic login is not retried and not hidden: when the
    scraper is logged out and [login()] raises, [delete_message], a
    refreshing [get_folder] and a refreshing [inbox] raise the same
    exception and leave the state [login()] left. *)
Theorem failed_auto_login_surfaces s e s1 :
  is_logged_in s = false ->
  login s = (Raise e, s1) ->
  forall fuel name msgid,
    delete_message msgid s = (Raise e, s1)
    /\ get_folder fuel name true s = (Raise e, s1)
    /\ inbox fuel true s = (Raise e, s1).
Proof.
  intros Hout Hlogin fuel name msgid.
  assert (ensure_logged_in s = (Raise e, s1)) as Hg.
  { unfold ensure_logged_in, bind, gets. now rewrite Hout. }
  assert (forall n, get_folder fuel n true s = (Raise e, s1)) as Hf.
  { intros n. rewrite get_folder_refresh_unfold. now apply bind_raise. }
  split; [| split].
  - unfold delete_message. now apply bind_raise.
  - apply Hf.
  - apply Hf.
Qed.

(** ** Further properties of the operations on the server *)

(** X10: on a logged-in scraper [delete_message] posts the deletion to
    [base_href] followed by the id without its "?Cmd=open", and when the
    server has answered it raises [NameError] at line 234: the message is
    moved on the server although the call fails.  An exception of the
    request itself surfaces unchanged. *)
Theorem delete_message_posts_then_raises msgid s h :
  is_logged_in s = true ->
  base_href s = Some h ->
  delete_message msgid s
  = match b_open (h ++ PyStr.replace "?Cmd=open" "" msgid)
            (Some (urlencode [("MsgId", PyStr.replace "?Cmd=open" "" msgid);
                              ("Cmd", "delete"); ("ReadForm", "1")]))
            (browser s) with
    | (Return _, b') => (Raise (NameError "remove_from_cache"), set_browser b' s)
    | (Raise e, b') => (Raise e, set_browser b' s)
    | (Diverge, b') => (Diverge, set_browser b' s)
    end.
Proof.
  intros Hin Hh. unfold delete_message.
  rewrite (bind_return _ _ _ _ _ (guard_skipped s Hin)).
  unfold href_plus, bind, gets, on_browser. rewrite Hh. cbn.
  destruct (b_open _ _ (browser s)) as [[r | e |] b']; reflexivity.
Qed.

Lemma starts_with_app needle post : PyStr.starts_with needle (needle ++ post) = true.
Proof.
  induction needle as [| c needle IH]; [reflexivity |].
  simpl. now rewrite Ascii.eqb_refl.
Qed.

Lemma contains_of_starts_with needle hay :
  PyStr.starts_with needle hay = true -> PyStr.contains needle hay = true.
Proof. intros Hs. destruct hay; simpl; now rewrite Hs. Qed.

Lemma contains_infix needle pre post :
  PyStr.contains needle (pre ++ needle ++ post) = true.
Proof.
  induction pre as [| c pre IH].
  - apply contains_of_starts_with. exact (starts_with_app needle post).
  - change (String c pre ++ needle ++ post) with (String c (pre ++ needle ++ post)).
    cbn [PyStr.contains]. rewrite IH. now destruct (PyStr.starts_with _ _).
Qed.

(** X11: the one-page test of line 191 is a substring test.  Whenever the
    body of the first listing page holds "&nbsp;of&nbsp;1" anywhere, as in
    "1 of 12", a refreshing [get_folder] takes the one-page branch: it asks
    for no further page, for any fuel, and stops at line 192. *)
Theorem get_folder_marker_anywhere fuel name s s0 urls s1 pre post s2 :
  ensure_logged_in s = (Return tt, s0) ->
  open_listing name s0 = (Return urls, s1) ->
  on_browser b_response_read s1 = (Return (pre ++ single_page_marker ++ post), s2) ->
  get_folder fuel name true s = (Raise (NameError "add_to_cache"), s2).
Proof.
  intros Hg Hopen Hread.
  rewrite get_folder_refresh_unfold.
  rewrite (bind_return _ _ _ _ _ Hg), (bind_return _ _ _ _ _ Hopen),
    (bind_return _ _ _ _ _ Hread), contains_infix.
  reflexivity.
Qed.

(** ** Further properties of the pagination loop *)

(** What a turn that completes hands to the next: the page it read is
    appended to the list, and [flag] tells whether it differs from the page
    before. *)
Lemma page_step_result last acc s r s' :
  page_step last acc s = (Return r, s') ->
  r.2 = (acc ++ r.1.2)%list /\ r.1.1 = negb (bool_decide (r.1.2 = last)).
Proof.
  unfold page_step, bind, lift, gets, ret, raise, on_browser.
  destruct (b_links (browser s)) as [[ls | e |] b1]; try discriminate.
  destruct (next_page_urls ls) as [[| u us] | e |]; try discriminate.
  cbn. destruct (b_open u None b1) as [[r0 | e |] b2]; try discriminate.
  cbn. destruct (b_links b2) as [[ls' | e |] b3]; try discriminate.
  cbn. destruct (stripped_eml_urls _ ls') as [murls | e |]; try discriminate.
  intros [= <- <-]. now split.
Qed.

Lemma paginate_extends fuel :
  forall last acc s r s',
    paginate fuel last acc s = (Return r, s') -> exists rest, r = (acc ++ rest)%list.
Proof.
  induction fuel as [| fuel IH]; intros last acc s r s' Hrun; simpl in Hrun.
  - discriminate Hrun.
  - unfold bind in Hrun.
    destruct (page_step last acc s) as [[t | e |] s1] eqn:Hstep; try discriminate.
    destruct (page_step_result _ _ _ _ _ Hstep) as [Ht _].
    destruct (t.1.1).
    + destruct (IH _ _ _ _ _ Hrun) as [rest Hrest].
      exists (t.1.2 ++ rest)%list. rewrite Hrest, Ht. now rewrite <- app_assoc.
    + injection Hrun as <- <-. exists t.1.2. exact Ht.
Qed.

(** A loop that has ended normally has ended at a turn that read the ids of
    the page before, and has appended them once more. *)
Lemma paginate_returned fuel :
  forall last pre s r s',
    paginate fuel last (pre ++ last)%list s = (Return r, s') ->
    exists k last' pre' s1 t,
      k < fuel
      /\ turns k last (pre ++ last)%list s
         = (Return (Some (last', (pre' ++ last')%list)), s1)
      /\ page_step last' (pre' ++ last')%list s1 = (Return t, s')
      /\ t.1.2 = last'
      /\ r = (pre' ++ last' ++ last')%list.
Proof.
  induction fuel as [| fuel IH]; intros last pre s r s' Hrun; simpl in Hrun.
  - discriminate Hrun.
  - unfold bind in Hrun.
    destruct (page_step last (pre ++ last)%list s) as [[t | e |] s1] eqn:Hstep;
      try discriminate.
    destruct (page_step_result _ _ _ _ _ Hstep) as [Ht Hflag].
    destruct (t.1.1) eqn:Hf.
    + rewrite Ht in Hrun.
      destruct (IH _ _ _ _ _ Hrun) as (k & last' & pre' & s2 & t' & Hk & Hturns & Hrest).
      exists (S k), last', pre', s2, t'. split; [lia |]. split; [| exact Hrest].
      simpl. rewrite (bind_return _ _ _ _ _ Hstep), Hf, Ht. exact Hturns.
    + injection Hrun as <- <-.
      symmetry in Hflag. apply negb_false_iff, bool_decide_eq_true in Hflag.
      exists 0, last, pre, s, t. split; [lia |]. split; [reflexivity |].
      split; [exact Hstep | split; [exact Hflag |]].
      now rewrite Ht, Hflag, <- app_assoc.
Qed.

(** X12: when the loop of [get_folder] ends normally, its last turn has
    read the very ids the turn before had read, [last], which the list
    already ended with, and has appended them once more: the list returned
    starts with the first page and ends with [last] twice. *)
Theorem paginate_ends_with_repeated_page fuel first s r s' :
  paginate fuel first first s = (Return r, s') ->
  (exists k last pre s1 t,
      k < fuel
      /\ turns k first first s = (Return (Some (last, (pre ++ last)%list)), s1)
      /\ page_step last (pre ++ last)%list s1 = (Return t, s')
      /\ t.1.2 = last
      /\ r = (pre ++ last ++ last)%list)
  /\ exists rest, r = (first ++ rest)%list.
Proof.
  intros Hrun. split.
  - exact (paginate_returned fuel first [] s r s' Hrun).
  - exact (paginate_extends fuel first first s r s' Hrun).
Qed.

(** X13: the loop stops at the first turn whose page equals the page
    before: when [k] turns have each read a new page and the next turn
    reads the same ids again, the loop ends for any fuel above [k], with the
    list built so far followed by that page once more. *)
Theorem paginate_stops_at_repeat fuel k first s last acc s1 r s2 :
  turns k first first s = (Return (Some (last, acc)), s1) ->
  page_step last acc s1 = (Return r, s2) ->
  r.1.2 = last ->
  k < fuel ->
  paginate fuel first first s = (Return (acc ++ last)%list, s2).
Proof.
  intros Hturns Hstep Hsame Hfuel.
  replace fuel with (k + S (fuel - S k)) by lia.
  rewrite (paginate_after_turns _ _ _ _ _ _ _ _ Hturns).
  simpl. rewrite (bind_return _ _ _ _ _ Hstep).
  destruct (page_step_result _ _ _ _ _ Hstep) as [Hr Hflag].
  rewrite Hflag, Hsame, bool_decide_eq_true_2 by reflexivity.
  simpl. unfold ret. now rewrite Hr, Hsame.
Qed.

Lemma next_page_urls_without_text ls :
  (exists l, l ∈ ls /\ link_text l = None) -> next_page_urls ls = Raise TypeError.
Proof.
  induction ls as [| l ls IH]; intros (l0 & Hin & Htext).
  - inversion Hin.
  - simpl. apply elem_of_cons in Hin as [-> | Hin].
    + now rewrite Htext.
    + destruct (link_text l); [| reflexivity].
      rewrite IH by eauto. reflexivity.
Qed.

(** X14: a link without text on the page stops the pagination: the test
    ['Next Page' in link.text] of line 198 raises [TypeError] before any
    request for a next page is made. *)
Theorem paginate_link_without_text fuel last acc s ls s1 l :
  on_browser b_links s = (Return ls, s1) ->
  l ∈ ls ->
  link_text l = None ->
  paginate (S fuel) last acc s = (Raise TypeError, s1).
Proof.
  intros Hlinks Hin Htext. simpl. apply bind_raise.
  unfold page_step. rewrite (bind_return _ _ _ _ _ Hlinks).
  unfold bind, lift. rewrite next_page_urls_without_text by eauto.
  reflexivity.
Qed.

(** ** Further properties of the cache methods *)

(** X15: [find_in_cache] always returns and changes nothing, and a truthy
    value it returns is a value stored under the given message id or under
    the given folder name. *)
Theorem find_in_cache_truthy_is_stored folder_name msgid s :
  exists v,
    find_in_cache folder_name msgid s = (Return v, s)
    /\ (truthy v = true ->
        (exists m, msgid = Some m /\ message_cache s !! m = Some v)
        \/ (exists f, folder_name = Some f /\ folder_cache s !! f = Some v)).
Proof.
  unfold find_in_cache.
  destruct msgid as [m |], folder_name as [f |];
    cbn [arg_truthy default from_option id]; cbv zeta;
    repeat match goal with
           | |- context [if ?c then _ else _] => destruct c
           | |- context [match ?d !! ?k with _ => _ end] =>
               let E := fresh "E" in destruct (d !! k) eqn:E
           end;
    eexists; (split; [reflexivity | intros Hv; try discriminate Hv; eauto]).
Qed.

(** X16: an empty listing that is cached reads as a miss: [find_in_cache]
    returns the empty list, which the callers' [if] takes as false, just as
    the [None] it returns for a folder that is not cached. *)
Theorem find_in_cache_empty_listing_is_falsy f s :
  f <> "" ->
  folder_cache s !! f = Some (PyUrls []) \/ folder_cache s !! f = None ->
  exists v, find_in_cache (Some f) None s = (Return v, s) /\ truthy v = false.
Proof.
  intros Hf Hc. destruct f as [| c f]; [contradiction |].
  unfold find_in_cache. cbn [arg_truthy default from_option id PyStr.truthy]. cbv zeta.
  destruct Hc as [Hc | Hc]; rewrite Hc; eexists; split; reflexivity.
Qed.

(** X17: [flush_cache] returns [True] and leaves both caches empty and the
    session and the browser as they were; after it every lookup misses. *)
Theorem flush_cache_empties s :
  (flush_cache s).1 = Return (PyBool true)
  /\ folder_cache (flush_cache s).2 = ∅
  /\ message_cache (flush_cache s).2 = ∅
  /\ is_logged_in (flush_cache s).2 = is_logged_in s
  /\ base_href (flush_cache s).2 = base_href s
  /\ browser (flush_cache s).2 = browser s
  /\ forall folder_name msgid,
      exists v, find_in_cache folder_name msgid (flush_cache s).2
                = (Return v, (flush_cache s).2)
                /\ truthy v = false.
Proof.
  repeat split.
  intros folder_name msgid. unfold find_in_cache. cbn.
  rewrite !lookup_empty.
  destruct (arg_truthy msgid), (arg_truthy folder_name); eexists; split; reflexivity.
Qed.

(** X18: the message cache has overwrite semantics and its lookup comes
    first: after two payloads were stored under one non-empty id,
    [find_in_cache] with that id returns the second, whatever folder name is
    passed along, and the folder cache is as it was. *)
Theorem message_cache_round_trip c m p1 p2 folder_name s :
  (find_in_cache folder_name (Some (String c m))
     (add_to_cache None PyNone (Some (String c m)) p2
        (add_to_cache None PyNone (Some (String c m)) p1 s).2).2).1
  = Return p2
  /\ folder_cache (add_to_cache None PyNone (Some (String c m)) p2
                     (add_to_cache None PyNone (Some (String c m)) p1 s).2).2
     = folder_cache s.
Proof.
  unfold add_to_cache, find_in_cache, bind, modify, dict_get. cbn.
  rewrite !lookup_insert_eq. cbn. rewrite lookup_insert_eq. now split.
Qed.





(** ** What the methods ask of the caches *)

Section CacheContents.

Variables fc mc : gmap string (pyval Response).

Let g : Scraper B Response -> Scraper B Response := with_cache_contents fc mc.

Lemma commutes_ret {A} (a : A) : commutes g (ret a).
Proof. intros s. reflexivity. Qed.

Lemma commutes_raise {A} e : commutes (A := A) g (raise e).
Proof. intros s. reflexivity. Qed.

Lemma commutes_diverge {A} : commutes (A := A) g diverge.
Proof. intros s. reflexivity. Qed.

Lemma commutes_lift {A} (o : outcome A) : commutes g (lift o).
Proof. intros s. reflexivity. Qed.

Lemma commutes_call_unbound name : commutes g (call_unbound name).
Proof. intros s. reflexivity. Qed.

Lemma commutes_bind {A C} (m : M (Scraper B Response) A)
    (f : A -> M (Scraper B Response) C) :
  commutes g m -> (forall a, commutes g (f a)) -> commutes g (bind m f).
Proof.
  intros Hm Hf s. unfold bind. rewrite Hm.
  destruct (m s) as [[a | e |] s1]; simpl; [apply Hf | reflexivity ..].
Qed.

Lemma commutes_on_browser {A} (op : B -> outcome A * B) : commutes g (on_browser op).
Proof.
  intros s. unfold on_browser, g, with_cache_contents. cbn.
  now destruct (op (browser s)).
Qed.

Lemma commutes_if {A} (c : bool) (m1 m2 : M (Scraper B Response) A) :
  commutes g m1 -> commutes g m2 -> commutes g (if c then m1 else m2).
Proof. now destruct c. Qed.

Create HintDb commutes discriminated.

#[local] Hint Resolve commutes_ret commutes_raise commutes_diverge commutes_lift
  commutes_call_unbound commutes_on_browser commutes_if : commutes.

Ltac commutes_steps :=
  repeat first
    [ assumption
    | solve [eauto with commutes]
    | apply commutes_bind; [| intros ?]
    | apply commutes_if
    | match goal with
      | |- commutes _ (match ?x with _ => _ end) => destruct x
      end
    | intros ?; reflexivity ].

Lemma commutes_login : commutes g login.
Proof. unfold login, login_page. commutes_steps. Qed.

Lemma commutes_ensure_logged_in : commutes g ensure_logged_in.
Proof. unfold ensure_logged_in. pose proof commutes_login. commutes_steps. Qed.

Lemma commutes_href_plus rest : commutes g (href_plus rest).
Proof. unfold href_plus. commutes_steps. Qed.

Lemma commutes_page_step last acc : commutes g (page_step last acc).
Proof. unfold page_step. commutes_steps. Qed.

Lemma commutes_paginate fuel : forall last acc, commutes g (paginate fuel last acc).
Proof.
  induction fuel as [| fuel IH]; intros last acc; simpl.
  - apply commutes_diverge.
  - apply commutes_bind; [apply commutes_page_step |].
    intros r. destruct (r.1.1); [apply IH | apply commutes_ret].
Qed.

Lemma commutes_get_folder_refresh fuel name : commutes g (get_folder fuel name true).
Proof.
  unfold get_folder, open_listing. simpl negb. cbv iota.
  pose proof commutes_ensure_logged_in. pose proof commutes_href_plus.
  pose proof (commutes_paginate fuel).
  commutes_steps.
Qed.

Lemma commutes_delete_message msgid : commutes g (delete_message msgid).
Proof.
  unfold delete_message.
  pose proof commutes_ensure_logged_in. pose proof commutes_href_plus.
  commutes_steps.
Qed.

(** X20: [login], [delete_message] and a refreshing [get_folder] do not
    read the caches: with any other contents in both caches they have the
    same outcome and leave the browser in the same state. *)
Theorem refresh_ignores_cache_contents fuel name msgid s :
  ((login (with_cache_contents fc mc s)).1 = (login s).1
   /\ browser (login (with_cache_contents fc mc s)).2 = browser (login s).2)
  /\ ((delete_message msgid (with_cache_contents fc mc s)).1 = (delete_message msgid s).1
      /\ browser (delete_message msgid (with_cache_contents fc mc s)).2
         = browser (delete_message msgid s).2)
  /\ ((get_folder fuel name true (with_cache_contents fc mc s)).1
      = (get_folder fuel name true s).1
      /\ browser (get_folder fuel name true (with_cache_contents fc mc s)).2
         = browser (get_folder fuel name true s).2).
Proof.
  pose proof (commutes_login s) as H1.
  pose proof (commutes_delete_message msgid s) as H2.
  pose proof (commutes_get_folder_refresh fuel name s) as H3.
  fold g. rewrite H1, H2, H3. now repeat split.
Qed.

End CacheContents.

(** ** Further properties of the methods as a whole *)

(** X21: [add_to_cache] writes under one key at most.  With a non-empty
    folder name it stores the listing, returns it and leaves the message
    cache alone, even when a message id and a payload are passed too; with
    neither name non-empty it returns [None] and changes nothing. *)
Theorem add_to_cache_one_key c f urls msgid payload s :
  (add_to_cache (Some (String c f)) urls msgid payload s).1 = Return urls
  /\ message_cache (add_to_cache (Some (String c f)) urls msgid payload s).2
     = message_cache s
  /\ folder_cache (add_to_cache (Some (String c f)) urls msgid payload s).2
     = <[String c f := urls]> (folder_cache s)
  /\ forall folder_name msgid',
      arg_truthy folder_name = false -> arg_truthy msgid' = false ->
      add_to_cache folder_name urls msgid' payload s = (Return PyNone, s).
Proof.
  split; [| split; [| split]].
  - unfold add_to_cache, bind, modify, dict_get. cbn. now rewrite lookup_insert_eq.
  - unfold add_to_cache, bind, modify, dict_get. cbn. now rewrite lookup_insert_eq.
  - unfold add_to_cache, bind, modify, dict_get. cbn. now rewrite lookup_insert_eq.
  - intros folder_name msgid' Hf Hm. unfold add_to_cache. now rewrite Hf, Hm.
Qed.

(** X22: no call of [get_folder], [inbox], [get_message] or
    [delete_message] returns a value, in any state and with any arguments:
    each raises or is cut short. *)
Theorem scraping_methods_never_return s :
  (forall fuel name refresh v, (get_folder fuel name refresh s).1 <> Return v)
  /\ (forall fuel refresh v, (inbox fuel refresh s).1 <> Return v)
  /\ (forall msgid v, (get_message msgid s).1 <> Return v)
  /\ (forall msgid v, (delete_message msgid s).1 <> Return v).
Proof.
  split; [| split; [| split]].
  - intros fuel name refresh v. apply get_folder_never_returns.
  - intros fuel refresh v. unfold inbox.
    destruct refresh; apply get_folder_never_returns.
  - intros msgid v. apply get_message_never_returns.
  - intros msgid v. apply delete_message_never_returns.
Qed.

Lemma contains_question_cons c id :
  PyStr.contains "?" (String c id) = false ->
  Ascii.eqb "?" c = false /\ PyStr.contains "?" id = false.
Proof.
  intros Hc.
  change (PyStr.contains "?" (String c id))
    with (if (if Ascii.eqb "?" c then PyStr.starts_with "" id else false)
          then true else PyStr.contains "?" id) in Hc.
  destruct (Ascii.eqb "?" c); [| now split].
  now destruct id.
Qed.

Lemma replace_open_suffix id :
  PyStr.contains "?" id = false ->
  PyStr.replace "?Cmd=open" "" (id ++ "?Cmd=open") = id
  /\ PyStr.replace "?Cmd=open" "" id = id.
Proof.
  unfold PyStr.replace.
  induction id as [| c id IH]; intros Hc; [now split |].
  apply contains_question_cons in Hc as [Hhead Hc].
  destruct (IH Hc) as [IH1 IH2].
  change (String c id ++ "?Cmd=open") with (String c (id ++ "?Cmd=open")).
  cbn [PyStr.replace_from].
  assert (forall t, PyStr.starts_with "?Cmd=open" (String c t) = false) as Hs.
  { intros t.
    change (PyStr.starts_with "?Cmd=open" (String c t))
      with (if Ascii.eqb "?" c then PyStr.starts_with "Cmd=open" t else false).
    now rewrite Hhead. }
  rewrite !Hs. now rewrite IH1, IH2.
Qed.

(** X23: an id may be passed with or without the "?Cmd=open" it carries in
    a listing link: for an id without a question mark,
    [delete_message(id + "?Cmd=open")] does what [delete_message(id)]
    does. *)
Theorem delete_message_drops_open_suffix id s :
  PyStr.contains "?" id = false ->
  delete_message (id ++ "?Cmd=open") s = delete_message id s.
Proof.
  intros Hc. destruct (replace_open_suffix id Hc) as [H1 H2].
  unfold delete_message. now rewrite H1, H2.
Qed.


End Facts.

(** ** The claims on the scripted mailbox *)

Module Scenarios.

Import Stub.

(** C1 (the code does otherwise): on the Inbox served as [P1], [P2], [P3]
    and [P3] again, [get_folder("Inbox")] raises [NameError] at its cache
    lookup before any request; with [refresh] set it opens the listing and
    makes three next-page requests, then raises [NameError] at line 205 with
    nothing cached; and the list its loop has built by then holds the
    repeated page: it is [P1 + P2 + P3 + P3]. *)
Theorem get_folder_three_pages_appends_repeat :
  get_folder 10 "Inbox" false (logged_in three_page_site)
  = (Raise (NameError "find_in_cache"), logged_in three_page_site)
  /\ (get_folder 10 "Inbox" true (logged_in three_page_site)).1
     = Raise (NameError "add_to_cache")
  /\ requests (browser (get_folder 10 "Inbox" true (logged_in three_page_site)).2)
     = (requests (browser (logged_in three_page_site)) ++
        [Get inbox_url; Get (page_url "2"); Get (page_url "3"); Get (page_url "4")])%list
  /\ folder_cache (get_folder 10 "Inbox" true (logged_in three_page_site)).2 = ∅
  /\ (open_listing "Inbox" (logged_in three_page_site)).1 = Return P1
  /\ (paginate 10 P1 P1 (open_listing "Inbox" (logged_in three_page_site)).2).1
     = Return (P1 ++ P2 ++ P3 ++ P3)%list.
Proof. repeat split; vm_compute; reflexivity. Qed.

(** C4 (the code raises instead): on an Inbox whose only page says
    "1 of 1", [get_folder("Inbox")] raises [NameError] at its cache lookup;
    with [refresh] set it opens the listing, makes no further request and
    raises [NameError] at line 192, with nothing cached and nothing
    returned; the ids it had read are those of the page. *)
Theorem get_folder_one_page_raises :
  get_folder 10 "Inbox" false (logged_in one_page_site)
  = (Raise (NameError "find_in_cache"), logged_in one_page_site)
  /\ (get_folder 10 "Inbox" true (logged_in one_page_site)).1
     = Raise (NameError "add_to_cache")
  /\ requests (browser (get_folder 10 "Inbox" true (logged_in one_page_site)).2)
     = (requests (browser (logged_in one_page_site)) ++ [Get inbox_url])%list
  /\ folder_cache (get_folder 10 "Inbox" true (logged_in one_page_site)).2 = ∅
  /\ (open_listing "Inbox" (logged_in one_page_site)).1 = Return P1.
Proof. repeat split; vm_compute; reflexivity. Qed.

(** The scripted [urlencode] quotes as [urllib] does. *)
Lemma stub_urlencode_example :
  urlencode [("MsgId", "Inbox/a b.EML"); ("Cmd", "delete"); ("ReadForm", "1")]
  = "MsgId=Inbox%2Fa+b.EML&Cmd=delete&ReadForm=1"
  /\ quote "Sent Items/x" = "Sent%20Items/x".
Proof. split; reflexivity. Qed.

(** The test of line 191 is a substring test: the indicator of a
    twelve-page folder holds the marker as well. *)
Lemma single_page_marker_in_of_12 :
  PyStr.contains single_page_marker "Page 1&nbsp;of&nbsp;12" = true.
Proof. reflexivity. Qed.

(** C2, refuted as stated: with the Inbox listing [P1] and the body of its
    first message cached, [delete_message] posts the deletion, raises
    [NameError] at line 234, and leaves the listing that holds the id, and
    the body, in the caches. *)
Lemma delete_message_leaves_listing_cached :
  (delete_message "Inbox/a.EML" (with_caches three_page_site)).1
  = Raise (NameError "remove_from_cache")
  /\ requests (browser (delete_message "Inbox/a.EML" (with_caches three_page_site)).2)
     = (requests (browser (with_caches three_page_site)) ++
        [Post (base ++ "Inbox/a.EML")
              (urlencode [("MsgId", "Inbox/a.EML"); ("Cmd", "delete"); ("ReadForm", "1")])])%list
  /\ "Inbox/a.EML" ∈ P1
  /\ folder_cache (delete_message "Inbox/a.EML" (with_caches three_page_site)).2 !! "Inbox"
     = Some (PyUrls P1)
  /\ ~ invalidated_by_delete "Inbox/a.EML" (with_caches three_page_site)
         (delete_message "Inbox/a.EML" (with_caches three_page_site)).2.
Proof.
  assert ("Inbox/a.EML" ∈ P1) as Hin by (unfold P1; apply list_elem_of_here).
  repeat split; try (vm_compute; reflexivity); try exact Hin.
  intros [_ Hf].
  specialize (Hf "Inbox" P1). 
  assert (folder_cache (with_caches three_page_site) !! "Inbox" = Some (PyUrls P1)) as Hc
    by (vm_compute; reflexivity).
  specialize (Hf Hc Hin). vm_compute in Hf. discriminate Hf.
Qed.


(** C8, refuted as stated: a listing stored under "Inbox" is found under
    "Inbox" and missed under "inbox". *)
Lemma folder_cache_key_is_case_sensitive :
  (find_in_cache (Some "Inbox") None
     (add_to_cache (Some "Inbox") (PyUrls P1) None PyNone (fresh one_page_site)).2).1
  = Return (PyUrls P1)
  /\ (find_in_cache (Some "inbox") None
        (add_to_cache (Some "Inbox") (PyUrls P1) None PyNone (fresh one_page_site)).2).1
     = Return PyNone.
Proof. split; vm_compute; reflexivity. Qed.

(** *** Instances of the theorems that have premises *)

Lemma logged_in_implies_base_href_witness :
  reachable (logged_in three_page_site)
  /\ is_logged_in (logged_in three_page_site) = true
  /\ is_Some (base_href (logged_in three_page_site)).
Proof.
  assert (reachable (logged_in three_page_site)) as Hr
    by (apply reachable_run, reachable_init).
  split; [exact Hr | split; [vm_compute; reflexivity |]].
  apply (logged_in_implies_base_href _ Hr). vm_compute; reflexivity.
Defined.



Lemma folder_cache_key_is_exact_witness :
  "inbox" <> "Inbox"
  /\ (add_to_cache (Some "Inbox") (PyUrls P1) None PyNone (fresh one_page_site)).1
     = Return (PyUrls P1)
  /\ (find_in_cache (Some "Inbox") None
        (add_to_cache (Some "Inbox") (PyUrls P1) None PyNone (fresh one_page_site)).2).1
     = Return (PyUrls P1)
  /\ (find_in_cache (Some "inbox") None
        (add_to_cache (Some "Inbox") (PyUrls P1) None PyNone (fresh one_page_site)).2).1
     = (find_in_cache (Some "inbox") None (fresh one_page_site)).1.
Proof.
  assert ("inbox" <> "Inbox") as Hne by discriminate.
  split; [exact Hne |].
  exact (folder_cache_key_is_exact "I" "nbox" (PyUrls P1) "inbox" (fresh one_page_site) Hne).
Defined.

Lemma delete_message_posts_and_keeps_folder_cache_witness :
  is_logged_in (with_caches three_page_site) = true
  /\ base_href (with_caches three_page_site) = Some base
  /\ "Inbox/a.EML" ∈ P1
  /\ folder_cache (delete_message "Inbox/a.EML?Cmd=open" (with_caches three_page_site)).2
     = folder_cache (with_caches three_page_site)
  /\ folder_cache (with_caches three_page_site) !! "Inbox" = Some (PyUrls P1)
  /\ requests (browser (delete_message "Inbox/a.EML?Cmd=open"
                          (with_caches three_page_site)).2)
     = (requests (browser (with_caches three_page_site)) ++
        [Post (base ++ "Inbox/a.EML")
              (urlencode [("MsgId", "Inbox/a.EML"); ("Cmd", "delete"); ("ReadForm", "1")])])%list.
Proof.
  assert (is_logged_in (with_caches three_page_site) = true) as Hin
    by (vm_compute; reflexivity).
  assert (base_href (with_caches three_page_site) = Some base) as Hb
    by (vm_compute; reflexivity).
  destruct (delete_message_posts_and_keeps_folder_cache "Inbox/a.EML?Cmd=open"
              (with_caches three_page_site)) as [Hfc Hpost].
  destruct (Hpost base Hin Hb) as [Hbrowser _].
  split; [exact Hin | split; [exact Hb | split; [apply list_elem_of_here |]]].
  split; [exact Hfc | split; [vm_compute; reflexivity |]].
  rewrite Hbrowser. vm_compute. reflexivity.
Defined.


(** *** Instances of the further properties that have premises *)

Lemma logged_in_iff_base_href_witness :
  reachable (logged_in three_page_site)
  /\ (is_logged_in (logged_in three_page_site) = true
      <-> is_Some (base_href (logged_in three_page_site)))
  /\ base_href (logged_in three_page_site) = Some base
  /\ base <> "".
Proof.
  assert (reachable (logged_in three_page_site)) as Hr
    by (apply reachable_run, reachable_init).
  assert (base_href (logged_in three_page_site) = Some base) as Hb
    by (vm_compute; reflexivity).
  destruct (logged_in_iff_base_href _ Hr) as [Hiff Hne].
  split; [exact Hr | split; [exact Hiff | split; [exact Hb | exact (Hne _ Hb)]]].
Defined.

Lemma logged_in_is_stable_witness :
  is_logged_in (logged_in three_page_site) = true
  /\ OpDeleteMessage "Inbox/a.EML" <> OpLogin (Response := string)
  /\ is_logged_in (run (OpDeleteMessage "Inbox/a.EML") (logged_in three_page_site)) = true
  /\ base_href (run (OpDeleteMessage "Inbox/a.EML") (logged_in three_page_site))
     = base_href (logged_in three_page_site).
Proof.
  assert (is_logged_in (logged_in three_page_site) = true) as Hin
    by (vm_compute; reflexivity).
  assert (OpDeleteMessage "Inbox/a.EML" <> OpLogin (Response := string))
    as Hne by discriminate.
  destruct (logged_in_is_stable (OpDeleteMessage "Inbox/a.EML") _ Hin) as [H1 H2].
  split; [exact Hin | split; [exact Hne | split; [exact H1 | exact (H2 Hne)]]].
Defined.

Lemma caches_written_only_by_add_and_flush_witness :
  writes_cache (OpRemoveFromCache (Response := string) (Some "Inbox") None)
  = false
  /\ folder_cache (run (OpRemoveFromCache (Some "Inbox") None) (with_caches three_page_site))
     = folder_cache (with_caches three_page_site)
  /\ message_cache (run (OpRemoveFromCache (Some "Inbox") None) (with_caches three_page_site))
     = message_cache (with_caches three_page_site).
Proof.
  assert (writes_cache
            (OpRemoveFromCache (Response := string) (Some "Inbox") None)
          = false) as Ho by reflexivity.
  split; [exact Ho |].
  exact (caches_written_only_by_add_and_flush _ (with_caches three_page_site) Ho).
Defined.

Lemma base_href_known_past_guard_witness :
  reachable (fresh three_page_site)
  /\ ensure_logged_in (fresh three_page_site)
     = (Return tt, (ensure_logged_in (fresh three_page_site)).2)
  /\ exists h,
      base_href (ensure_logged_in (fresh three_page_site)).2 = Some h
      /\ forall rest,
          href_plus rest (ensure_logged_in (fresh three_page_site)).2
          = (Return (h ++ rest), (ensure_logged_in (fresh three_page_site)).2).
Proof.
  assert (reachable (fresh three_page_site)) as Hr by apply reachable_init.
  assert (ensure_logged_in (fresh three_page_site)
          = (Return tt, (ensure_logged_in (fresh three_page_site)).2)) as Hg
    by (vm_compute; reflexivity).
  split; [exact Hr | split; [exact Hg |]].
  exact (base_href_known_past_guard _ _ Hr Hg).
Defined.

Lemma login_sets_session_witness :
  PyStr.contains failure_marker (page_body landing_page) = false
  /\ link_base_url (a_link "Inbox/" "Inbox") <> ""
  /\ (login (fresh three_page_site)).1 = Return tt
  /\ is_logged_in (login (fresh three_page_site)).2 = true
  /\ base_href (login (fresh three_page_site)).2 = Some base.
Proof.
  pose (s := fresh three_page_site).
  pose (s1 := (login_page s).2).
  pose (s2 := (on_browser b_links s1).2).
  assert (login_page s = (Return (page_body landing_page), s1)) as Hpage
    by (vm_compute; reflexivity).
  assert (PyStr.contains failure_marker (page_body landing_page) = false) as Hmark
    by (vm_compute; reflexivity).
  assert (on_browser b_links s1 = (Return [a_link "Inbox/" "Inbox"], s2)) as Hlinks
    by (vm_compute; reflexivity).
  assert (link_base_url (a_link "Inbox/" "Inbox") <> "") as Hbase by discriminate.
  destruct (login_sets_session s _ s1 _ _ s2 Hpage Hmark Hlinks Hbase) as [Hrun _].
  fold s. rewrite Hrun.
  split; [exact Hmark | split; [exact Hbase |]].
  split; [reflexivity | split; reflexivity].
Defined.

Lemma login_without_base_url_witness :
  (login (fresh no_links_site)).1 = Raise StopIteration
  /\ is_logged_in (login (fresh no_links_site)).2 = false
  /\ (login (fresh no_base_site)).1
     = Raise (RetrievalError "Couldn't find <base href> on page after logging in.")
  /\ is_logged_in (login (fresh no_base_site)).2 = false.
Proof.
  pose (s := fresh no_links_site).
  pose (s1 := (login_page s).2).
  pose (s2 := (on_browser b_links s1).2).
  assert (login_page s = (Return "Welcome", s1)) as Hpage by (vm_compute; reflexivity).
  assert (PyStr.contains failure_marker "Welcome" = false) as Hmark
    by (vm_compute; reflexivity).
  assert (on_browser b_links s1 = (Return [], s2)) as Hlinks by (vm_compute; reflexivity).
  destruct (login_without_base_url s _ s1 [] s2 Hpage Hmark Hlinks I) as (Hrun & Hl & _).
  pose (t := fresh no_base_site).
  pose (t1 := (login_page t).2).
  pose (t2 := (on_browser b_links t1).2).
  assert (login_page t = (Return "Welcome", t1)) as Hpage' by (vm_compute; reflexivity).
  assert (on_browser b_links t1 = (Return [mkLink "Inbox/" (Some "Inbox") ""], t2))
    as Hlinks' by (vm_compute; reflexivity).
  destruct (login_without_base_url t _ t1 _ t2 Hpage' Hmark Hlinks' eq_refl)
    as (Hrun' & Hl' & _).
  fold s t. rewrite Hrun, Hrun'. simpl.
  split; [reflexivity | split; [exact Hl | split; [reflexivity | exact Hl']]].
Defined.

Lemma failed_login_changes_nothing_witness :
  (login (fresh no_form_site)).1 = Raise (BrowserError "FormNotFoundError")
  /\ (login (fresh no_form_site)).1 <> Return tt
  /\ is_logged_in (login (fresh no_form_site)).2 = false
  /\ base_href (login (fresh no_form_site)).2 = None
  /\ folder_cache (login (fresh no_form_site)).2 = ∅
  /\ message_cache (login (fresh no_form_site)).2 = ∅.
Proof.
  assert ((login (fresh no_form_site)).1 = Raise (BrowserError "FormNotFoundError"))
    as Hrun by (vm_compute; reflexivity).
  assert ((login (fresh no_form_site)).1 <> Return tt) as Hfail
    by (rewrite Hrun; discriminate).
  destruct (failed_login_changes_nothing _ Hfail) as (Hl & Hb & Hfc & Hmc & _).
  split; [exact Hrun | split; [exact Hfail |]].
  split; [exact Hl | split; [exact Hb | split; [exact Hfc | exact Hmc]]].
Defined.

Lemma failed_auto_login_surfaces_witness :
  is_logged_in (fresh rejecting_site) = false
  /\ login (fresh rejecting_site) = (Raise InvalidLogin, (login (fresh rejecting_site)).2)
  /\ delete_message "Inbox/a.EML" (fresh rejecting_site)
     = (Raise InvalidLogin, (login (fresh rejecting_site)).2)
  /\ get_folder 10 "Inbox" true (fresh rejecting_site)
     = (Raise InvalidLogin, (login (fresh rejecting_site)).2)
  /\ inbox 10 true (fresh rejecting_site)
     = (Raise InvalidLogin, (login (fresh rejecting_site)).2).
Proof.
  assert (is_logged_in (fresh rejecting_site) = false) as Hout by reflexivity.
  assert (login (fresh rejecting_site)
          = (Raise InvalidLogin, (login (fresh rejecting_site)).2)) as Hlogin
    by (vm_compute; reflexivity).
  split; [exact Hout | split; [exact Hlogin |]].
  exact (failed_auto_login_surfaces _ _ _ Hout Hlogin 10 "Inbox" "Inbox/a.EML").
Defined.

Lemma delete_message_posts_then_raises_witness :
  is_logged_in (with_caches three_page_site) = true
  /\ base_href (with_caches three_page_site) = Some base
  /\ (delete_message "Inbox/a.EML?Cmd=open" (with_caches three_page_site)).1
     = Raise (NameError "remove_from_cache")
  /\ requests (browser (delete_message "Inbox/a.EML?Cmd=open"
                          (with_caches three_page_site)).2)
     = (requests (browser (with_caches three_page_site)) ++
        [Post (base ++ "Inbox/a.EML")
              (urlencode [("MsgId", "Inbox/a.EML"); ("Cmd", "delete"); ("ReadForm", "1")])])%list.
Proof.
  assert (is_logged_in (with_caches three_page_site) = true) as Hin
    by (vm_compute; reflexivity).
  assert (base_href (with_caches three_page_site) = Some base) as Hb
    by (vm_compute; reflexivity).
  split; [exact Hin | split; [exact Hb |]].
  rewrite (delete_message_posts_then_raises "Inbox/a.EML?Cmd=open" _ _ Hin Hb).
  split; vm_compute; reflexivity.
Defined.

Lemma get_folder_marker_anywhere_witness :
  page_body (listing "Page 1&nbsp;of&nbsp;12" P1 (Some (page_url "2")))
  = "Page 1" ++ single_page_marker ++ "2"
  /\ (get_folder 0 "Inbox" true (logged_in twelve_page_site)).1
     = Raise (NameError "add_to_cache")
  /\ requests (browser (get_folder 0 "Inbox" true (logged_in twelve_page_site)).2)
     = (requests (browser (logged_in twelve_page_site)) ++ [Get inbox_url])%list.
Proof.
  pose (s := logged_in twelve_page_site).
  pose (s0 := (ensure_logged_in s).2).
  pose (s1 := (open_listing "Inbox" s0).2).
  pose (s2 := (on_browser b_response_read s1).2).
  assert (ensure_logged_in s = (Return tt, s0)) as H1 by (vm_compute; reflexivity).
  assert (open_listing "Inbox" s0 = (Return P1, s1)) as H2 by (vm_compute; reflexivity).
  assert (on_browser b_response_read s1
          = (Return ("Page 1" ++ single_page_marker ++ "2"), s2)) as H3
    by (vm_compute; reflexivity).
  split; [reflexivity |].
  fold s. rewrite (get_folder_marker_anywhere 0 "Inbox" s s0 P1 s1 _ _ s2 H1 H2 H3).
  split; vm_compute; reflexivity.
Defined.

Lemma paginate_ends_with_repeated_page_witness :
  paginate 10 P1 P1 (open_listing "Inbox" (logged_in three_page_site)).2
  = (Return (P1 ++ P2 ++ P3 ++ P3)%list,
     (paginate 10 P1 P1 (open_listing "Inbox" (logged_in three_page_site)).2).2)
  /\ (exists k last pre s1 t,
         k < 10
         /\ turns k P1 P1 (open_listing "Inbox" (logged_in three_page_site)).2
            = (Return (Some (last, (pre ++ last)%list)), s1)
         /\ page_step last (pre ++ last)%list s1
            = (Return t,
               (paginate 10 P1 P1 (open_listing "Inbox" (logged_in three_page_site)).2).2)
         /\ t.1.2 = last
         /\ (P1 ++ P2 ++ P3 ++ P3)%list = (pre ++ last ++ last)%list)
  /\ exists rest, (P1 ++ P2 ++ P3 ++ P3)%list = (P1 ++ rest)%list.
Proof.
  assert (paginate 10 P1 P1 (open_listing "Inbox" (logged_in three_page_site)).2
          = (Return (P1 ++ P2 ++ P3 ++ P3)%list,
             (paginate 10 P1 P1 (open_listing "Inbox" (logged_in three_page_site)).2).2))
    as Hrun by (vm_compute; reflexivity).
  split; [exact Hrun |].
  exact (paginate_ends_with_repeated_page _ _ _ _ _ Hrun).
Defined.

Lemma paginate_stops_at_repeat_witness :
  2 < 3
  /\ paginate 3 P1 P1 (open_listing "Inbox" (logged_in three_page_site)).2
     = (Return ((P1 ++ P2 ++ P3) ++ P3)%list,
        (paginate 3 P1 P1 (open_listing "Inbox" (logged_in three_page_site)).2).2).
Proof.
  pose (s := (open_listing "Inbox" (logged_in three_page_site)).2).
  pose (s1 := (turns 2 P1 P1 s).2).
  pose (r := (false, P3, ((P1 ++ P2 ++ P3) ++ P3)%list)).
  pose (s2 := (page_step P3 (P1 ++ P2 ++ P3)%list s1).2).
  assert (turns 2 P1 P1 s = (Return (Some (P3, (P1 ++ P2 ++ P3)%list)), s1)) as Hturns
    by (vm_compute; reflexivity).
  assert (page_step P3 (P1 ++ P2 ++ P3)%list s1 = (Return r, s2)) as Hstep
    by (vm_compute; reflexivity).
  assert (r.1.2 = P3) as Hsame by reflexivity.
  assert (2 < 3) as Hfuel by lia.
  split; [exact Hfuel |].
  fold s. rewrite (paginate_stops_at_repeat 3 2 P1 s P3 _ s1 r s2 Hturns Hstep Hsame Hfuel).
  reflexivity.
Defined.

Lemma paginate_link_without_text_witness :
  logo_link ∈ [a_link "Inbox/a.EML" "message"; logo_link; a_link (page_url "2") "Next Page"]
  /\ link_text logo_link = None
  /\ paginate 10 ["Inbox/a.EML"] ["Inbox/a.EML"]
       (on_browser b_response_read (open_listing "Inbox" (logged_in textless_site)).2).2
     = (Raise TypeError,
        (on_browser b_response_read (open_listing "Inbox" (logged_in textless_site)).2).2)
  /\ (get_folder 10 "Inbox" true (logged_in textless_site)).1 = Raise TypeError.
Proof.
  pose (s := (on_browser b_response_read (open_listing "Inbox" (logged_in textless_site)).2).2).
  pose (ls := [a_link "Inbox/a.EML" "message"; logo_link; a_link (page_url "2") "Next Page"]).
  assert (on_browser b_links s = (Return ls, s)) as Hlinks by (vm_compute; reflexivity).
  assert (logo_link ∈ ls) as Hin by (apply list_elem_of_further, list_elem_of_here).
  assert (link_text logo_link = None) as Htext by reflexivity.
  split; [exact Hin | split; [exact Htext | split]].
  - exact (paginate_link_without_text 9 ["Inbox/a.EML"] ["Inbox/a.EML"] s ls s
             logo_link Hlinks Hin Htext).
  - vm_compute. reflexivity.
Defined.

Lemma find_in_cache_truthy_is_stored_witness :
  find_in_cache (Some "Inbox") None (with_caches three_page_site)
  = (Return (PyUrls P1), with_caches three_page_site)
  /\ truthy (B := Browser) (PyUrls P1) = true
  /\ find_in_cache (Some "Sent Items") (Some "Inbox/z.EML") (with_caches three_page_site)
     = (Return PyNone, with_caches three_page_site)
  /\ exists v,
      find_in_cache (Some "Inbox") None (with_caches three_page_site)
      = (Return v, with_caches three_page_site)
      /\ (truthy v = true ->
          (exists m, None = Some m
                     /\ message_cache (with_caches three_page_site) !! m = Some v)
          \/ (exists f, Some "Inbox" = Some f
                        /\ folder_cache (with_caches three_page_site) !! f = Some v)).
Proof.
  split; [vm_compute; reflexivity | split; [reflexivity | split]].
  - vm_compute. reflexivity.
  - exact (find_in_cache_truthy_is_stored (Some "Inbox") None (with_caches three_page_site)).
Defined.

Lemma find_in_cache_empty_listing_is_falsy_witness :
  "Drafts" <> ""
  /\ folder_cache with_empty_listing !! "Drafts" = Some (PyUrls [])
  /\ exists v, find_in_cache (Some "Drafts") None with_empty_listing
               = (Return v, with_empty_listing)
               /\ truthy v = false.
Proof.
  assert ("Drafts" <> "") as Hf by discriminate.
  assert (folder_cache with_empty_listing !! "Drafts" = Some (PyUrls [])) as Hc
    by (vm_compute; reflexivity).
  split; [exact Hf | split; [exact Hc |]].
  exact (find_in_cache_empty_listing_is_falsy "Drafts" with_empty_listing Hf (or_introl Hc)).
Defined.


Lemma delete_message_drops_open_suffix_witness :
  PyStr.contains "?" "Inbox/a.EML" = false
  /\ delete_message "Inbox/a.EML?Cmd=open" (with_caches three_page_site)
     = delete_message "Inbox/a.EML" (with_caches three_page_site).
Proof.
  assert (PyStr.contains "?" "Inbox/a.EML" = false) as Hc by (vm_compute; reflexivity).
  split; [exact Hc |].
  exact (delete_message_drops_open_suffix "Inbox/a.EML" (with_caches three_page_site) Hc).
Defined.

Lemma add_to_cache_one_key_witness :
  (add_to_cache (Some "Inbox") (PyUrls P1) (Some "Inbox/a.EML") (PyPayload "Subject: hello")
     (fresh one_page_site)).1 = Return (PyUrls P1)
  /\ message_cache
       (add_to_cache (Some "Inbox") (PyUrls P1) (Some "Inbox/a.EML")
          (PyPayload "Subject: hello") (fresh one_page_site)).2 = ∅
  /\ arg_truthy (Some "") = false
  /\ add_to_cache (Some "") (PyUrls P1) None (PyPayload "Subject: hello")
       (fresh one_page_site)
     = (Return PyNone, fresh one_page_site).
Proof.
  destruct (add_to_cache_one_key "I" "nbox" (PyUrls P1) (Some "Inbox/a.EML")
              (PyPayload "Subject: hello") (fresh one_page_site))
    as (Hret & Hmc & _ & Hnone).
  split; [exact Hret | split; [exact Hmc | split; [reflexivity |]]].
  exact (Hnone (Some "") None eq_refl eq_refl).
Defined.

Lemma scraping_methods_never_return_witness :
  (get_folder 10 "Inbox" true (logged_in three_page_site)).1 <> Return (PyUrls P1)
  /\ (inbox 10 false (logged_in three_page_site)).1 <> Return (PyUrls P1)
  /\ (get_message "Inbox/a.EML" (with_caches three_page_site)).1
     <> Return (PyPayload "Subject: hello")
  /\ (delete_message "Inbox/a.EML" (with_caches three_page_site)).1
     <> Return (PyPayload "moved").
Proof.
  split; [| split; [| split]].
  - apply (scraping_methods_never_return (logged_in three_page_site)).
  - apply (scraping_methods_never_return (logged_in three_page_site)).
  - apply (scraping_methods_never_return (with_caches three_page_site)).
  - apply (scraping_methods_never_return (with_caches three_page_site)).
Defined.


End Scenarios.
